(** * Decision Intelligence Platform: scoring, trade-offs, narrative, orchestration

    A shallow embedding of the Python backend (models.py, scoring.py,
    tradeoffs.py, kiro_agent.py, decision_engine.py, db.py, main.py) and the
    properties of it that the specification states.

    Conventions of the embedding.
    - A Python [float] is an exact rational ([Q]): the arithmetic of the
      source is read as the arithmetic of the formulas, without binary64
      rounding.  Equality of numbers is [Qeq] ([==]).  Float division by
      zero raises [ZeroDivisionError], as in Python.
    - A Python exception is a value of [exn]; code that can raise returns
      [result].  [try ... except Exception] is [try_except].
    - A pydantic model is a record in a module of the model's name; an
      [Enum] is an inductive type; a [dict] that is only built and read is
      an association list in insertion order.
    - [uuid.uuid4()] and [datetime.now()] are inputs of the operation that
      reads them. *)

From Stdlib Require Import QArith Qround Qabs Qminmax ZArith List String Ascii Bool.
From Stdlib Require Import DecimalString.
From Stdlib Require Import Lia Lqa Permutation Sorted.
Import ListNotations.

Local Open Scope string_scope.
Local Open Scope list_scope.
Local Open Scope Q_scope.

(** String concatenation, as [+] on [str] and as the joints of an f-string. *)
Infix "^^" := String.append (at level 60, right associativity).

(** ** Exceptions and the error monad *)

Inductive exn : Type :=
| ZeroDivisionError
| IndexError
| KeyError (key : string)
| ValueError (msg : string)
| Sqlite3Error (msg : string)
| HTTPException (status_code : nat) (detail : string).

Inductive result (A : Type) : Type :=
| Ok (a : A)
| Raise (e : exn).

Arguments Ok {A} a.
Arguments Raise {A} e.

Definition bind {A B : Type} (m : result A) (k : A -> result B) : result B :=
  match m with
  | Ok a => k a
  | Raise e => Raise e
  end.

Notation "x <- m ;; k" := (bind m (fun x => k))
  (at level 61, m at next level, right associativity).

Definition try_except {A : Type} (body : result A) (handler : exn -> result A)
  : result A :=
  match body with
  | Ok a => Ok a
  | Raise e => handler e
  end.

Fixpoint mapM {A B : Type} (f : A -> result B) (l : list A) : result (list B) :=
  match l with
  | [] => Ok []
  | x :: xs => y <- f x ;; ys <- mapM f xs ;; Ok (y :: ys)
  end.

(** A [for] loop whose body extends one accumulated list. *)
Fixpoint for_extend {A B : Type} (f : A -> result (list B)) (l : list A)
  : result (list B) :=
  match l with
  | [] => Ok []
  | x :: xs => ys <- f x ;; zs <- for_extend f xs ;; Ok (ys ++ zs)
  end.

(** ** Python numerics *)

Definition Qlt_bool (x y : Q) : bool := negb (Qle_bool y x).

(** [max(a, b)] and [min(a, b)] keep the first argument on a tie. *)
Definition py_max (a b : Q) : Q := if Qlt_bool a b then b else a.
Definition py_min (a b : Q) : Q := if Qlt_bool b a then b else a.

Definition py_div (a b : Q) : result Q :=
  if Qeq_bool b 0 then Raise ZeroDivisionError else Ok (a / b).

(** [round(x)] to the nearest integer, ties to even. *)
Definition round_half_even (x : Q) : Z :=
  let f := Qfloor x in
  let r := x - inject_Z f in
  if Qlt_bool r (1 # 2) then f
  else if Qlt_bool (1 # 2) r then (f + 1)%Z
  else if Z.even f then f else (f + 1)%Z.

(** [round(x, 2)]. *)
Definition py_round2 (x : Q) : Q := round_half_even (x * 100) # 100.

(** ** models.py *)

Inductive CloudProvider : Type := AWS | AZURE | GCP | MULTI.

Inductive ComplianceLevel : Type := NONE | BASIC | HIPAA | SOC2 | PCI | GDPR.

Inductive SkillLevel : Type := BEGINNER | INTERMEDIATE | ADVANCED | EXPERT.

Definition CloudProvider_eqb (a b : CloudProvider) : bool :=
  match a, b with
  | AWS, AWS | AZURE, AZURE | GCP, GCP | MULTI, MULTI => true
  | _, _ => false
  end.

(** The [.value] of the enumerations that the narrative reads. *)
Definition ComplianceLevel_value (c : ComplianceLevel) : string :=
  match c with
  | NONE => "none" | BASIC => "basic" | HIPAA => "hipaa"
  | SOC2 => "soc2" | PCI => "pci" | GDPR => "gdpr"
  end.

Definition SkillLevel_value (s : SkillLevel) : string :=
  match s with
  | BEGINNER => "beginner" | INTERMEDIATE => "intermediate"
  | ADVANCED => "advanced" | EXPERT => "expert"
  end.

Module TechOption.
Record t : Type := mk {
  name : string;
  description : string;
  cost : Q;
  latency : Q;
  scalability : Q;
  compliance : ComplianceLevel;
  cloud : CloudProvider;
  team_skill_required : SkillLevel;
  pros : list string;
  cons : list string
}.
End TechOption.

Module Constraints.
Record t : Type := mk {
  budget : Q;
  max_latency : Q;
  required_scale : Q;
  compliance : ComplianceLevel;
  preferred_cloud : option CloudProvider;
  team_skill : SkillLevel
}.
End Constraints.

Module ComparisonRequest.
Record t : Type := mk {
  options : list TechOption.t;
  constraints : Constraints.t;
  use_case : string;
  description : option string
}.
End ComparisonRequest.

Module OptionScore.
Record t : Type := mk {
  option_name : string;
  total_score : Q;
  cost_score : Q;
  latency_score : Q;
  scalability_score : Q;
  compliance_score : Q;
  cloud_score : Q;
  skill_score : Q;
  weighted_score : Q
}.

(** [==] of two models: field by field. *)
Definition eqb (a b : t) : bool :=
  String.eqb (option_name a) (option_name b)
  && Qeq_bool (total_score a) (total_score b)
  && Qeq_bool (cost_score a) (cost_score b)
  && Qeq_bool (latency_score a) (latency_score b)
  && Qeq_bool (scalability_score a) (scalability_score b)
  && Qeq_bool (compliance_score a) (compliance_score b)
  && Qeq_bool (cloud_score a) (cloud_score b)
  && Qeq_bool (skill_score a) (skill_score b)
  && Qeq_bool (weighted_score a) (weighted_score b).
End OptionScore.

Module TradeOff.
Record t : Type := mk {
  option_a : string;
  option_b : string;
  dimension : string;
  winner : string;
  explanation : string;
  impact : string
}.
End TradeOff.

Module KiroAnalysis.
Record t : Type := mk {
  summary : string;
  key_insights : list string;
  recommendations : list string;
  risk_factors : list string;
  best_for_scenarios : list (string * string)
}.
End KiroAnalysis.

Module ComparisonResult.
Record t : Type := mk {
  comparison_id : option string;
  scores : list OptionScore.t;
  tradeoffs : list TradeOff.t;
  kiro_analysis : KiroAnalysis.t;
  timestamp : option string
}.
End ComparisonResult.

(** ** scoring.py *)

Inductive Dimension : Type :=
| Dim_cost | Dim_latency | Dim_scalability | Dim_compliance | Dim_cloud | Dim_skill.

(** [ScoringEngine.weights]. *)
Definition weights (d : Dimension) : Q :=
  match d with
  | Dim_cost => 0.25
  | Dim_latency => 0.20
  | Dim_scalability => 0.20
  | Dim_compliance => 0.15
  | Dim_cloud => 0.10
  | Dim_skill => 0.10
  end.

Definition _score_cost (option_cost budget_constraint : Q) : result Q :=
  if Qle_bool option_cost budget_constraint then Ok 10
  else
    penalty <- py_div (option_cost - budget_constraint) budget_constraint ;;
    Ok (py_max 0 (10 - penalty * 5)).

Definition _score_latency (option_latency latency_constraint : Q) : result Q :=
  if Qle_bool option_latency latency_constraint then Ok 10
  else
    penalty <- py_div (option_latency - latency_constraint) latency_constraint ;;
    Ok (py_max 0 (10 - penalty * 5)).

Definition _score_scalability (option_scalability required_scale : Q) : result Q :=
  if Qle_bool required_scale option_scalability then
    q <- py_div (option_scalability - required_scale) required_scale ;;
    let bonus := py_min 2 q in
    Ok (py_min 10 (8 + bonus))
  else
    penalty <- py_div (required_scale - option_scalability) required_scale ;;
    Ok (py_max 0 (8 - penalty * 8)).

Definition compliance_levels (c : ComplianceLevel) : Z :=
  match c with
  | NONE => 0 | BASIC => 1 | SOC2 => 2 | HIPAA => 3 | PCI => 3 | GDPR => 4
  end.

Definition _score_compliance (option_compliance required_compliance : ComplianceLevel)
  : Q :=
  let option_level := compliance_levels option_compliance in
  let required_level := compliance_levels required_compliance in
  if (required_level <=? option_level)%Z then 10
  else inject_Z (Z.max 0 (10 - (required_level - option_level) * 3)).

Definition _score_cloud (option_cloud : CloudProvider)
           (preferred_cloud : option CloudProvider) : Q :=
  match preferred_cloud with
  | None => 8
  | Some preferred =>
      if CloudProvider_eqb option_cloud preferred then 10
      else if CloudProvider_eqb option_cloud MULTI then 9
      else 6
  end.

Definition skill_levels (s : SkillLevel) : Z :=
  match s with
  | BEGINNER => 1 | INTERMEDIATE => 2 | ADVANCED => 3 | EXPERT => 4
  end.

Definition _score_skill (required_skill team_skill : SkillLevel) : Q :=
  let required_level := skill_levels required_skill in
  let team_level := skill_levels team_skill in
  if (required_level <=? team_level)%Z then 10
  else
    let gap := (required_level - team_level)%Z in
    inject_Z (Z.max 0 (10 - gap * 3)).

(** The weighted total of six unrounded dimension scores. *)
Definition weighted_total (cost_score latency_score scalability_score
                           compliance_score cloud_score skill_score : Q) : Q :=
  cost_score * weights Dim_cost +
  latency_score * weights Dim_latency +
  scalability_score * weights Dim_scalability +
  compliance_score * weights Dim_compliance +
  cloud_score * weights Dim_cloud +
  skill_score * weights Dim_skill.

Definition _score_single_option (opt : TechOption.t) (constraints : Constraints.t)
  : result OptionScore.t :=
  cost_score <- _score_cost (TechOption.cost opt) (Constraints.budget constraints) ;;
  latency_score <-
    _score_latency (TechOption.latency opt) (Constraints.max_latency constraints) ;;
  scalability_score <-
    _score_scalability (TechOption.scalability opt)
                       (Constraints.required_scale constraints) ;;
  let compliance_score :=
    _score_compliance (TechOption.compliance opt) (Constraints.compliance constraints) in
  let cloud_score :=
    _score_cloud (TechOption.cloud opt) (Constraints.preferred_cloud constraints) in
  let skill_score :=
    _score_skill (TechOption.team_skill_required opt)
                 (Constraints.team_skill constraints) in
  let weighted_score :=
    weighted_total cost_score latency_score scalability_score
                   compliance_score cloud_score skill_score in
  let total_score :=
    (cost_score + latency_score + scalability_score +
     compliance_score + cloud_score + skill_score) / 6 in
  Ok (OptionScore.mk (TechOption.name opt)
                     (py_round2 total_score)
                     (py_round2 cost_score)
                     (py_round2 latency_score)
                     (py_round2 scalability_score)
                     (py_round2 compliance_score)
                     (py_round2 cloud_score)
                     (py_round2 skill_score)
                     (py_round2 weighted_score)).

(** [sorted(xs, key=..., reverse=True)]: the stable sort by decreasing key.
    An element is inserted in front of the first element whose key is not
    greater than its own, so equal keys keep the order they arrive in. *)
Section SortedReverse.
Context {A : Type} (key : A -> Q).

Fixpoint insert_desc (x : A) (l : list A) : list A :=
  match l with
  | [] => [x]
  | y :: l' => if Qlt_bool (key x) (key y) then y :: insert_desc x l' else x :: l
  end.

Fixpoint sorted_reverse (l : list A) : list A :=
  match l with
  | [] => []
  | x :: xs => insert_desc x (sorted_reverse xs)
  end.
End SortedReverse.

Definition score_options (options : list TechOption.t) (constraints : Constraints.t)
  : result (list OptionScore.t) :=
  scores <- mapM (fun opt => _score_single_option opt constraints) options ;;
  Ok (sorted_reverse OptionScore.weighted_score scores).

(** ** tradeoffs.py *)

(** [TradeOffGenerator.dimensions]. *)
Definition dimensions : list string :=
  ["cost"; "latency"; "scalability"; "compliance"; "cloud"; "skill"].

Definition _calculate_impact (score_difference : Q) : string :=
  if Qle_bool 4 score_difference then "high"
  else if Qle_bool 2 score_difference then "medium"
  else "low".

(** [_compare_options] is six blocks of one shape, one per dimension, which
    differ in the score field read, the dimension string and the phrase of the
    explanation.  [compare_block] is that block. *)
Definition compare_block (dimension phrase : string)
           (option_a option_b : TechOption.t) (score_a score_b : Q)
  : list TradeOff.t :=
  if Qlt_bool 1 (Qabs (score_a - score_b)) then
    let winner :=
      if Qlt_bool score_b score_a then TechOption.name option_a
      else TechOption.name option_b in
    let loser :=
      if String.eqb winner (TechOption.name option_a) then TechOption.name option_b
      else TechOption.name option_a in
    [TradeOff.mk (TechOption.name option_a) (TechOption.name option_b)
                 dimension winner
                 (winner ^^ phrase ^^ loser)
                 (_calculate_impact (Qabs (score_a - score_b)))]
  else [].

Definition dimension_name (d : Dimension) : string :=
  match d with
  | Dim_cost => "cost"
  | Dim_latency => "latency"
  | Dim_scalability => "scalability"
  | Dim_compliance => "compliance"
  | Dim_cloud => "cloud"
  | Dim_skill => "skill"
  end.

Definition dimension_phrase (d : Dimension) : string :=
  match d with
  | Dim_cost => " is more cost-effective than "
  | Dim_latency => " offers better latency performance than "
  | Dim_scalability => " scales better than "
  | Dim_compliance => " better meets compliance requirements than "
  | Dim_cloud => " better aligns with cloud preferences than "
  | Dim_skill => " better matches team skill level than "
  end.

(** The score field that the block of a dimension reads. *)
Definition dimension_score (d : Dimension) (s : OptionScore.t) : Q :=
  match d with
  | Dim_cost => OptionScore.cost_score s
  | Dim_latency => OptionScore.latency_score s
  | Dim_scalability => OptionScore.scalability_score s
  | Dim_compliance => OptionScore.compliance_score s
  | Dim_cloud => OptionScore.cloud_score s
  | Dim_skill => OptionScore.skill_score s
  end.

Definition compare_on (d : Dimension) (option_a option_b : TechOption.t)
           (score_a score_b : OptionScore.t) : list TradeOff.t :=
  compare_block (dimension_name d) (dimension_phrase d) option_a option_b
                (dimension_score d score_a) (dimension_score d score_b).

Definition _compare_options (option_a option_b : TechOption.t)
           (score_a score_b : OptionScore.t) : list TradeOff.t :=
  compare_on Dim_cost option_a option_b score_a score_b
  ++ compare_on Dim_latency option_a option_b score_a score_b
  ++ compare_on Dim_scalability option_a option_b score_a score_b
  ++ compare_on Dim_compliance option_a option_b score_a score_b
  ++ compare_on Dim_cloud option_a option_b score_a score_b
  ++ compare_on Dim_skill option_a option_b score_a score_b.

(** [xs[i]] for an index that is not negative. *)
Definition list_index {A : Type} (xs : list A) (i : nat) : result A :=
  match nth_error xs i with
  | Some x => Ok x
  | None => Raise IndexError
  end.

(** [{score.option_name: score for score in scores}[name]]: of several
    scores of one name the dictionary keeps the last. *)
Definition score_lookup (scores : list OptionScore.t) (name : string)
  : result OptionScore.t :=
  match find (fun s => String.eqb (OptionScore.option_name s) name) (rev scores) with
  | Some s => Ok s
  | None => Raise (KeyError name)
  end.

Definition generate_tradeoffs (options : list TechOption.t)
           (scores : list OptionScore.t) : result (list TradeOff.t) :=
  let n := List.length options in
  for_extend (fun i =>
    for_extend (fun j =>
      option_a <- list_index options i ;;
      option_b <- list_index options j ;;
      score_a <- score_lookup scores (TechOption.name option_a) ;;
      score_b <- score_lookup scores (TechOption.name option_b) ;;
      Ok (_compare_options option_a option_b score_a score_b))
    (seq (i + 1) (n - (i + 1))))
  (seq 0 n).

(** ** Python strings *)

Definition lower_ascii (c : ascii) : ascii :=
  let n := nat_of_ascii c in
  if (65 <=? n)%nat && (n <=? 90)%nat then ascii_of_nat (n + 32) else c.

(** [s.lower()], on ASCII text. *)
Fixpoint str_lower (s : string) : string :=
  match s with
  | EmptyString => EmptyString
  | String c s' => String (lower_ascii c) (str_lower s')
  end.

(** [sub in s]. *)
Fixpoint str_in (sub s : string) : bool :=
  String.prefix sub s
  || match s with
     | EmptyString => false
     | String _ s' => str_in sub s'
     end.

(** [c.isspace()], on ASCII. *)
Definition is_space (c : ascii) : bool :=
  let n := nat_of_ascii c in
  ((9 <=? n)%nat && (n <=? 13)%nat) || ((28 <=? n)%nat && (n <=? 32)%nat).

Fixpoint str_lstrip (s : string) : string :=
  match s with
  | EmptyString => EmptyString
  | String c s' => if is_space c then str_lstrip s' else s
  end.

Definition str_rev (s : string) : string :=
  string_of_list_ascii (rev (list_ascii_of_string s)).

(** [s.strip()]. *)
Definition str_strip (s : string) : string :=
  str_rev (str_lstrip (str_rev (str_lstrip s))).

(** [sep.join(xs)]. *)
Fixpoint str_join (sep : string) (xs : list string) : string :=
  match xs with
  | [] => ""
  | [x] => x
  | x :: xs' => x ^^ sep ^^ str_join sep xs'
  end.

Definition str_of_nat (n : nat) : string := NilZero.string_of_uint (Nat.to_uint n).

(** [str(x)] of a float [x] that has at most two decimals: the digits, with
    the trailing zero of the fraction dropped ([10.0], [8.8], [9.56]). *)
Definition str_of_float2 (x : Q) : string :=
  let h := round_half_even (x * 100) in
  let a := Z.abs h in
  let ip := (a / 100)%Z in
  let d1 := ((a / 10) mod 10)%Z in
  let d2 := (a mod 10)%Z in
  (if (h <? 0)%Z then "-" else "")
  ^^ str_of_nat (Z.to_nat ip) ^^ "."
  ^^ str_of_nat (Z.to_nat d1)
  ^^ (if (d2 =? 0)%Z then "" else str_of_nat (Z.to_nat d2)).

(** [max(xs, key=key)]: the first element of greatest key. *)
Section MaxBy.
Context {A : Type} (key : A -> Q).

Fixpoint max_from (best : A) (xs : list A) : A :=
  match xs with
  | [] => best
  | x :: xs' => max_from (if Qlt_bool (key best) (key x) then x else best) xs'
  end.

Definition max_by (xs : list A) : result A :=
  match xs with
  | [] => Raise (ValueError "max() arg is an empty sequence")
  | x :: xs' => Ok (max_from x xs')
  end.

Fixpoint min_from (best : A) (xs : list A) : A :=
  match xs with
  | [] => best
  | x :: xs' => min_from (if Qlt_bool (key x) (key best) then x else best) xs'
  end.

Definition min_by (xs : list A) : result A :=
  match xs with
  | [] => Raise (ValueError "min() arg is an empty sequence")
  | x :: xs' => Ok (min_from x xs')
  end.
End MaxBy.

(** [xs.index(v)]. *)
Fixpoint index_of (v : Q) (xs : list Q) : result nat :=
  match xs with
  | [] => Raise (ValueError "x is not in list")
  | x :: xs' => if Qeq_bool x v then Ok O else i <- index_of v xs' ;; Ok (S i)
  end.

(** [xs[-1]]. *)
Definition list_last {A : Type} (xs : list A) : result A :=
  match rev xs with
  | [] => Raise IndexError
  | x :: _ => Ok x
  end.

(** A [set] of strings, read only through [==] and iteration: the distinct
    elements, here in the order of their first occurrence (Python leaves
    the iteration order of a set open). *)
Fixpoint str_set (xs : list string) : list string :=
  match xs with
  | [] => []
  | x :: xs' =>
      x :: filter (fun y => negb (String.eqb x y)) (str_set xs')
  end.

Definition str_mem (x : string) (xs : list string) : bool :=
  existsb (String.eqb x) xs.

Definition str_set_eqb (a b : list string) : bool :=
  forallb (fun x => str_mem x b) a && forallb (fun x => str_mem x a) b.

(** ** kiro_agent.py *)

Module Context.
Record t : Type := mk {
  primary_concern : string;
  risk_tolerance : string;
  decision_type : string
}.
End Context.

Definition _analyze_context (constraints : Constraints.t) (use_case : string)
  : Context.t :=
  let primary_concern :=
    if Qle_bool (Constraints.budget constraints) 3 then "cost"
    else if Qle_bool (Constraints.max_latency constraints) 3 then "performance"
    else if str_mem (ComplianceLevel_value (Constraints.compliance constraints))
                    ["hipaa"; "pci"; "gdpr"] then "compliance"
    else if str_mem (SkillLevel_value (Constraints.team_skill constraints))
                    ["beginner"; "intermediate"] then "team_capability"
    else "balanced" in
  let use_case_lower := str_lower use_case in
  let risk_tolerance :=
    if existsb (fun word => str_in word use_case_lower)
               ["startup"; "mvp"; "prototype"] then "high"
    else if existsb (fun word => str_in word use_case_lower)
                    ["enterprise"; "production"; "critical"] then "low"
    else "medium" in
  Context.mk primary_concern risk_tolerance "technical".

Definition perf_key (s : OptionScore.t) : Q :=
  (OptionScore.latency_score s + OptionScore.scalability_score s) / 2.

Definition high_impact (tradeoffs : list TradeOff.t) : list TradeOff.t :=
  filter (fun t => String.eqb (TradeOff.impact t) "high") tradeoffs.

Definition _generate_insights (options : list TechOption.t)
           (scores : list OptionScore.t) (tradeoffs : list TradeOff.t)
  : result (list string) :=
  top <- list_index scores 0 ;;
  bottom <- list_last scores ;;
  let top_score := OptionScore.weighted_score top in
  let bottom_score := OptionScore.weighted_score bottom in
  let score_gap := top_score - bottom_score in
  let insights_gap :=
    if Qlt_bool score_gap 1 then
      ["All options are very close in overall scoring - decision factors beyond metrics may be important"]
    else if Qlt_bool 4 score_gap then
      ["Clear winner: " ^^ OptionScore.option_name top
        ^^ " significantly outperforms other options"]
    else [] in
  let high_impact_tradeoffs := high_impact tradeoffs in
  let insights_tradeoffs :=
    match high_impact_tradeoffs with
    | [] => []
    | _ =>
        let dimensions := str_set (map TradeOff.dimension high_impact_tradeoffs) in
        ["Critical trade-offs exist in: " ^^ str_join ", " dimensions]
    end in
  let cost_leaders := firstn 2 (sorted_reverse OptionScore.cost_score scores) in
  let perf_leaders := firstn 2 (sorted_reverse perf_key scores) in
  let insights_leaders :=
    if negb (str_set_eqb (map OptionScore.option_name cost_leaders)
                         (map OptionScore.option_name perf_leaders)) then
      ["Classic cost vs performance trade-off - no option excels at both"]
    else [] in
  let compliance_scores := map OptionScore.compliance_score scores in
  highest <- max_by (fun x => x) compliance_scores ;;
  lowest <- min_by (fun x => x) compliance_scores ;;
  let insights_compliance :=
    if Qlt_bool 3 (highest - lowest) then
      ["Significant compliance differences between options - regulatory requirements are decisive"]
    else [] in
  Ok (insights_gap ++ insights_tradeoffs ++ insights_leaders ++ insights_compliance).

(** [scores[perf_scores.index(max(perf_scores))]]. *)
Definition perf_leader_of (scores : list OptionScore.t) : result OptionScore.t :=
  let perf_scores := map perf_key scores in
  best <- max_by (fun x => x) perf_scores ;;
  i <- index_of best perf_scores ;;
  list_index scores i.

Definition _generate_recommendations (options : list TechOption.t)
           (scores : list OptionScore.t) (tradeoffs : list TradeOff.t)
           (context : Context.t) : result (list string) :=
  by_concern <-
    (if String.eqb (Context.primary_concern context) "cost" then
       cost_leader <- max_by OptionScore.cost_score scores ;;
       let first :=
         "For cost optimization: Choose " ^^ OptionScore.option_name cost_leader
           ^^ " - best cost efficiency" in
       if (1 <? List.length scores)%nat then
         top <- list_index scores 0 ;;
         balanced_option <-
           (if negb (OptionScore.eqb top cost_leader) then list_index scores 1
            else list_index scores 0) ;;
         Ok [first;
             "For balanced approach: Consider "
               ^^ OptionScore.option_name balanced_option
               ^^ " - good cost with better features"]
       else Ok [first]
     else if String.eqb (Context.primary_concern context) "performance" then
       perf_leader <- perf_leader_of scores ;;
       let first :=
         "For maximum performance: Choose " ^^ OptionScore.option_name perf_leader
           ^^ " - superior speed and scale" in
       if (1 <? List.length scores)%nat then
         cost_conscious <- max_by OptionScore.cost_score scores ;;
         if negb (OptionScore.eqb cost_conscious perf_leader) then
           Ok [first;
               "For performance on budget: Consider "
                 ^^ OptionScore.option_name cost_conscious
                 ^^ " - acceptable performance, lower cost"]
         else Ok [first]
       else Ok [first]
     else if String.eqb (Context.primary_concern context) "compliance" then
       compliance_leader <- max_by OptionScore.compliance_score scores ;;
       Ok ["For regulatory compliance: Choose "
             ^^ OptionScore.option_name compliance_leader
             ^^ " - meets all requirements"]
     else Ok []) ;;
  let by_risk :=
    if String.eqb (Context.risk_tolerance context) "low" then
      let established_options :=
        filter (fun s =>
                  existsb (fun opt =>
                             String.eqb (TechOption.name opt) (OptionScore.option_name s)
                             && str_in "enterprise"
                                       (str_lower (TechOption.description opt)))
                          options)
               scores in
      match established_options with
      | [] => []
      | s :: _ =>
          ["For low-risk deployment: " ^^ OptionScore.option_name s
             ^^ " - proven enterprise solution"]
      end
    else [] in
  top <- list_index scores 0 ;;
  cost_best <- max_by OptionScore.cost_score scores ;;
  latency_best <- max_by OptionScore.latency_score scores ;;
  Ok (by_concern ++ by_risk ++
      ["Choice depends on priorities: " ^^ OptionScore.option_name top
         ^^ " for overall balance, " ^^ OptionScore.option_name cost_best
         ^^ " for cost, " ^^ OptionScore.option_name latency_best
         ^^ " for performance"]).

Definition score_risks (score : OptionScore.t) : list string :=
  (if Qlt_bool (OptionScore.cost_score score) 4 then
     [OptionScore.option_name score ^^ ": High cost risk - may exceed budget"]
   else [])
  ++ (if Qlt_bool (OptionScore.latency_score score) 4 then
        [OptionScore.option_name score
           ^^ ": Performance risk - may not meet latency requirements"]
      else [])
  ++ (if Qlt_bool (OptionScore.scalability_score score) 4 then
        [OptionScore.option_name score
           ^^ ": Scalability risk - may not handle growth"]
      else [])
  ++ (if Qlt_bool (OptionScore.compliance_score score) 6 then
        [OptionScore.option_name score
           ^^ ": Compliance risk - may not meet regulatory requirements"]
      else [])
  ++ (if Qlt_bool (OptionScore.skill_score score) 5 then
        [OptionScore.option_name score
           ^^ ": Team capability risk - may require additional training"]
      else []).

Definition _identify_risks (options : list TechOption.t)
           (scores : list OptionScore.t) (tradeoffs : list TradeOff.t)
  : list string :=
  flat_map score_risks scores
  ++ map (fun tradeoff =>
            "Choosing " ^^ TradeOff.winner tradeoff
              ^^ " over alternatives sacrifices " ^^ TradeOff.dimension tradeoff
              ^^ " performance")
         (high_impact tradeoffs).

Definition _map_scenarios (options : list TechOption.t)
           (scores : list OptionScore.t) (tradeoffs : list TradeOff.t)
  : result (list (string * string)) :=
  cost_leader <- max_by OptionScore.cost_score scores ;;
  perf_leader <- perf_leader_of scores ;;
  skill_leader <- max_by OptionScore.skill_score scores ;;
  compliance_leader <- max_by OptionScore.compliance_score scores ;;
  balanced_leader <- max_by OptionScore.weighted_score scores ;;
  Ok [("tight_budget",
       OptionScore.option_name cost_leader ^^ " - most cost-effective option");
      ("high_performance",
       OptionScore.option_name perf_leader ^^ " - best performance characteristics");
      ("quick_deployment",
       OptionScore.option_name skill_leader ^^ " - matches current team skills");
      ("enterprise_deployment",
       OptionScore.option_name compliance_leader
         ^^ " - strongest compliance and governance");
      ("startup_mvp",
       OptionScore.option_name balanced_leader
         ^^ " - best overall balance for rapid iteration")].

Definition _generate_summary (options : list TechOption.t)
           (scores : list OptionScore.t) (context : Context.t) : result string :=
  top_option <- list_index scores 0 ;;
  let option_count := List.length options in
  Ok ("Analyzed " ^^ str_of_nat option_count
        ^^ " technical options for your use case. "
        ^^ (if String.eqb (Context.primary_concern context) "cost" then
              "With cost as the primary concern, the analysis reveals significant trade-offs between price and capabilities. "
            else if String.eqb (Context.primary_concern context) "performance" then
              "Performance requirements drive this decision, with clear winners in latency and scalability. "
            else if String.eqb (Context.primary_concern context) "compliance" then
              "Regulatory compliance is the decisive factor, limiting viable options. "
            else "")
        ^^ OptionScore.option_name top_option
        ^^ " leads in overall scoring (weighted score: "
        ^^ str_of_float2 (OptionScore.weighted_score top_option) ^^ "), "
        ^^ "but each option has distinct advantages depending on your specific priorities and constraints. "
        ^^ "The decision should align with your risk tolerance and long-term technical strategy.").

Definition analyze (options : list TechOption.t) (constraints : Constraints.t)
           (scores : list OptionScore.t) (tradeoffs : list TradeOff.t)
           (use_case : string) : result KiroAnalysis.t :=
  let context := _analyze_context constraints use_case in
  insights <- _generate_insights options scores tradeoffs ;;
  recommendations <- _generate_recommendations options scores tradeoffs context ;;
  let risks := _identify_risks options scores tradeoffs in
  scenarios <- _map_scenarios options scores tradeoffs ;;
  summary <- _generate_summary options scores context ;;
  Ok (KiroAnalysis.mk summary insights recommendations risks scenarios).

(** ** decision_engine.py *)

Module DecisionEngine.

Definition compare (request : ComparisonRequest.t) : result ComparisonResult.t :=
scores <- score_options (ComparisonRequest.options request)
                        (ComparisonRequest.constraints request) ;;
tradeoffs <- generate_tradeoffs (ComparisonRequest.options request) scores ;;
kiro_analysis <- analyze (ComparisonRequest.options request)
                         (ComparisonRequest.constraints request)
                         scores tradeoffs
                         (ComparisonRequest.use_case request) ;;
Ok (ComparisonResult.mk None scores tradeoffs kiro_analysis None).

Definition validate_request (request : ComparisonRequest.t) : result bool :=
if (List.length (ComparisonRequest.options request) <? 2)%nat then
  Raise (ValueError "At least 2 options are required for comparison")
else if String.eqb (str_strip (ComparisonRequest.use_case request)) "" then
  Raise (ValueError "Use case description is required")
else Ok true.

End DecisionEngine.

(** ** db.py *)

Module Database.

(** A row of table [comparisons].  The JSON text of the request and of the
    result stands for the value it encodes. *)
Record comparison_row : Type := mk_comparison_row {
  id : string;
  request_data : ComparisonRequest.t;
  result_data : ComparisonResult.t;
  use_case : string;
  timestamp : string
}.

(** A row of table [comparison_options]. *)
Record option_row : Type := mk_option_row {
  comparison_id : string;
  option_name : string;
  option_data : TechOption.t;
  score : Q
}.

(** The database file: its two tables, and whether [sqlite3.connect] can
    open it.  A failure of sqlite3 is the exception [Sqlite3Error]. *)
Record t : Type := mk {
  comparisons : list comparison_row;
  comparison_options : list option_row;
  connectable : bool
}.

Definition empty : t := mk [] [] true.

Definition connect (db : t) : result unit :=
  if connectable db then Ok tt
  else Raise (Sqlite3Error "unable to open database file").

(** [next((s for s in scores if s.option_name == name), None)], then the
    weighted score of what was found, or [0.0]. *)
Definition stored_score (scores : list OptionScore.t) (name : string) : Q :=
  match find (fun s => String.eqb (OptionScore.option_name s) name) scores with
  | Some option_score => OptionScore.weighted_score option_score
  | None => 0
  end.

(** [store_comparison]; [uuid] is the value of [uuid.uuid4()] and [now] that
    of [datetime.now().isoformat()].  A failed insert is rolled back: the
    database is returned as it was. *)
Definition store_comparison (db : t) (uuid now : string)
           (request : ComparisonRequest.t) (result_ : ComparisonResult.t)
  : t * result string :=
  match connect db with
  | Raise e => (db, Raise e)
  | Ok _ =>
      if existsb (fun row => String.eqb (id row) uuid) (comparisons db) then
        (db, Raise (Sqlite3Error "UNIQUE constraint failed: comparisons.id"))
      else
        let row :=
          mk_comparison_row uuid request result_
                            (ComparisonRequest.use_case request) now in
        let option_rows :=
          map (fun opt =>
                 mk_option_row uuid (TechOption.name opt) opt
                               (stored_score (ComparisonResult.scores result_)
                                             (TechOption.name opt)))
              (ComparisonRequest.options request) in
        (mk (comparisons db ++ [row])
            (comparison_options db ++ option_rows)
            (connectable db),
         Ok uuid)
  end.

(** [get_comparison]: the row of that id, or [None]. *)
Definition get_comparison (db : t) (comparison_id : string)
  : result (option comparison_row) :=
  _ <- connect db ;;
  Ok (find (fun row => String.eqb (id row) comparison_id) (comparisons db)).

End Database.

(** ** main.py *)

(** [str(e)].  An [HTTPException] prints as its status and detail. *)
Definition exn_str (e : exn) : string :=
  match e with
  | ZeroDivisionError => "float division by zero"
  | IndexError => "list index out of range"
  | KeyError key => "'" ^^ key ^^ "'"
  | ValueError msg => msg
  | Sqlite3Error msg => msg
  | HTTPException status_code detail => str_of_nat status_code ^^ ": " ^^ detail
  end.

(** The status of the response that the framework sends for the outcome of
    a handler. *)
Definition http_status {A : Type} (outcome : result A) : nat :=
  match outcome with
  | Ok _ => 200
  | Raise (HTTPException status_code _) => status_code
  | Raise _ => 500
  end.

Definition set_comparison_id (result_ : ComparisonResult.t) (comparison_id : string)
  : ComparisonResult.t :=
  ComparisonResult.mk (Some comparison_id)
                      (ComparisonResult.scores result_)
                      (ComparisonResult.tradeoffs result_)
                      (ComparisonResult.kiro_analysis result_)
                      (ComparisonResult.timestamp result_).

(** [POST /compare]. *)
Definition compare_options (db : Database.t) (uuid now : string)
           (request : ComparisonRequest.t)
  : Database.t * result ComparisonResult.t :=
  match DecisionEngine.compare request with
  | Raise e => (db, Raise (HTTPException 500 (exn_str e)))
  | Ok result_ =>
      match Database.store_comparison db uuid now request result_ with
      | (db', Raise e) => (db', Raise (HTTPException 500 (exn_str e)))
      | (db', Ok comparison_id) => (db', Ok (set_comparison_id result_ comparison_id))
      end
  end.

(** [GET /comparisons/{comparison_id}]. *)
Definition get_comparison (db : Database.t) (comparison_id : string)
  : result Database.comparison_row :=
  try_except
    (comparison <- Database.get_comparison db comparison_id ;;
     match comparison with
     | None => Raise (HTTPException 404 "Comparison not found")
     | Some row => Ok row
     end)
    (fun e => Raise (HTTPException 500 (exn_str e))).

(** ** Reading the scores of one option *)

(** The unrounded score of a dimension, as [_score_single_option] computes it
    before it builds the [OptionScore]. *)
Definition raw_score (d : Dimension) (opt : TechOption.t) (constraints : Constraints.t)
  : result Q :=
  match d with
  | Dim_cost => _score_cost (TechOption.cost opt) (Constraints.budget constraints)
  | Dim_latency =>
      _score_latency (TechOption.latency opt) (Constraints.max_latency constraints)
  | Dim_scalability =>
      _score_scalability (TechOption.scalability opt)
                         (Constraints.required_scale constraints)
  | Dim_compliance =>
      Ok (_score_compliance (TechOption.compliance opt)
                            (Constraints.compliance constraints))
  | Dim_cloud =>
      Ok (_score_cloud (TechOption.cloud opt) (Constraints.preferred_cloud constraints))
  | Dim_skill =>
      Ok (_score_skill (TechOption.team_skill_required opt)
                       (Constraints.team_skill constraints))
  end.

(** ** Reading the trade-offs of one pair *)

(** The index pairs that the two loops of [generate_tradeoffs] visit over
    [n] options, in the order of the visit. *)
Definition index_pairs (n : nat) : list (nat * nat) :=
  flat_map (fun i => map (pair i) (seq (i + 1) (n - (i + 1)))) (seq 0 n).

(** The body of the inner loop at the index pair [p]. *)
Definition pair_tradeoffs (options : list TechOption.t) (scores : list OptionScore.t)
           (p : nat * nat) : result (list TradeOff.t) :=
  option_a <- list_index options (fst p) ;;
  option_b <- list_index options (snd p) ;;
  score_a <- score_lookup scores (TechOption.name option_a) ;;
  score_b <- score_lookup scores (TechOption.name option_b) ;;
  Ok (_compare_options option_a option_b score_a score_b).

(** The absolute difference of two scores on a dimension. *)
Definition score_gap (d : Dimension) (score_a score_b : OptionScore.t) : Q :=
  Qabs (dimension_score d score_a - dimension_score d score_b).


(** [xs] can be read off [ys] from left to right, skipping elements. *)
Fixpoint is_subsequence (xs ys : list string) : bool :=
  match xs, ys with
  | [], _ => true
  | _ :: _, [] => false
  | x :: xs', y :: ys' =>
      if String.eqb x y then is_subsequence xs' ys' else is_subsequence xs ys'
  end.

(** A value on the documented 1-10 scale. *)
Definition on_scale (x : Q) : Prop := 1 <= x <= 10.

(** The skill rule in the words of the specification: ranks beginner=1 to
    expert=4; 10 when the team's rank reaches the required rank, and
    otherwise 10 less 3 per missing rank, not below 0. *)
Definition spec_skill_rank (s : SkillLevel) : Q :=
  match s with
  | BEGINNER => 1 | INTERMEDIATE => 2 | ADVANCED => 3 | EXPERT => 4
  end.

Definition spec_skill_score (required_rank team_rank : Q) : Q :=
  if Qle_bool required_rank team_rank then 10
  else Qmax 0 (10 - 3 * (required_rank - team_rank)).

(** ** Sample data *)

Definition sample_option : TechOption.t :=
  TechOption.mk "Managed SQL" "hosted relational database"
                2 2 9 SOC2 AWS INTERMEDIATE ["simple"] ["vendor lock-in"].

Definition sample_rival : TechOption.t :=
  TechOption.mk "Self-hosted" "cluster on rented machines"
                9 9.5 3 BASIC GCP EXPERT ["control"] ["operations"].

Definition sample_constraints : Constraints.t :=
  Constraints.mk 8 8 5 BASIC None EXPERT.

(** An option and constraints for which rounding the dimension scores first
    would change the weighted score. *)
Definition fractional_option : TechOption.t :=
  TechOption.mk "Edge cache" "regional cache" 1 4 5 BASIC AWS BEGINNER [] [].

Definition fractional_constraints : Constraints.t :=
  Constraints.mk 1 3 9 BASIC None BEGINNER.

(** Three options of which the first and the last tie on every score. *)
Definition sample_twin : TechOption.t :=
  TechOption.mk "Managed SQL replica" "hosted relational database, second region"
                2 2 9 SOC2 AWS INTERMEDIATE ["simple"] ["vendor lock-in"].

Definition sample_options : list TechOption.t :=
  [sample_rival; sample_option; sample_twin].

(** Constraints under which the sample options differ on every dimension. *)
Definition strict_constraints : Constraints.t :=
  Constraints.mk 5 7 5 SOC2 (Some AWS) ADVANCED.

Definition strict_scores : list OptionScore.t :=
  Eval vm_compute in
    match score_options sample_options strict_constraints with
    | Ok scores => scores
    | Raise _ => []
    end.

(** Requests: one with a single option, one whose use case is blank, and one
    whose constraints and use case single out no concern. *)
Definition single_option_request : ComparisonRequest.t :=
  ComparisonRequest.mk [sample_option] sample_constraints "inventory service" None.

Definition blank_use_case_request : ComparisonRequest.t :=
  ComparisonRequest.mk [sample_option; sample_rival] sample_constraints "   " None.

Definition balanced_request : ComparisonRequest.t :=
  ComparisonRequest.mk [sample_option; sample_rival] sample_constraints
                       "inventory service" None.

Definition empty_request : ComparisonRequest.t :=
  ComparisonRequest.mk [] sample_constraints "inventory service" None.

Definition unreachable_database : Database.t := Database.mk [] [] false.

(** An option that [sample_option] is no worse than on any attribute. *)
Definition sample_dominated : TechOption.t :=
  TechOption.mk "Self-hosted on AWS" "cluster on rented machines"
                9 9.5 3 BASIC AWS EXPERT ["control"] ["operations"].

(** The result of comparing [balanced_request]. *)
Definition balanced_result : ComparisonResult.t :=
  Eval vm_compute in
    match DecisionEngine.compare balanced_request with
    | Ok result_ => result_
    | Raise _ =>
        ComparisonResult.mk None [] [] (KiroAnalysis.mk "" [] [] [] []) None
    end.

(** * Properties *)

(** ** Comparisons of rationals *)

Lemma Qlt_bool_iff (x y : Q) : Qlt_bool x y = true <-> x < y.
Proof.
  unfold Qlt_bool. rewrite negb_true_iff.
  split; intro H.
  - apply Qnot_le_lt. intro Hle. apply Qle_bool_iff in Hle. congruence.
  - destruct (Qle_bool y x) eqn:E; [|reflexivity].
    apply Qle_bool_iff in E. exfalso. exact (Qlt_not_le _ _ H E).
Qed.

Lemma Qlt_bool_false_iff (x y : Q) : Qlt_bool x y = false <-> y <= x.
Proof.
  unfold Qlt_bool. rewrite negb_false_iff. apply Qle_bool_iff.
Qed.

Lemma Qle_bool_false_iff (x y : Q) : Qle_bool x y = false <-> y < x.
Proof.
  rewrite <- Qlt_bool_iff. unfold Qlt_bool.
  destruct (Qle_bool x y); simpl; intuition congruence.
Qed.

(** Case analysis on a comparison, leaving the order fact in the context. *)
Ltac case_Qlt x y :=
  let E := fresh "E" in
  destruct (Qlt_bool x y) eqn:E;
  [apply Qlt_bool_iff in E | apply Qlt_bool_false_iff in E];
  cbv iota.

Ltac case_Qle x y :=
  let E := fresh "E" in
  destruct (Qle_bool x y) eqn:E;
  [apply Qle_bool_iff in E | apply Qle_bool_false_iff in E];
  cbv iota.

Lemma py_max_ge_l (a b : Q) : a <= py_max a b.
Proof. unfold py_max. case_Qlt a b; lra. Qed.

Lemma py_max_le (a b c : Q) : a <= c -> b <= c -> py_max a b <= c.
Proof. unfold py_max. case_Qlt a b; lra. Qed.

Lemma py_min_le_l (a b : Q) : py_min a b <= a.
Proof. unfold py_min. case_Qlt b a; lra. Qed.

Lemma py_min_ge (a b c : Q) : c <= a -> c <= b -> c <= py_min a b.
Proof. unfold py_min. case_Qlt b a; lra. Qed.

Lemma py_div_ok (a b : Q) : ~ b == 0 -> py_div a b = Ok (a / b).
Proof.
  intro Hb. unfold py_div.
  destruct (Qeq_bool b 0) eqn:E; [|reflexivity].
  apply Qeq_bool_iff in E. contradiction.
Qed.

Lemma Qdiv_pos (a b : Q) : 0 < a -> 0 < b -> 0 < a / b.
Proof.
  intros Ha Hb. unfold Qdiv.
  apply Qmult_lt_0_compat; [assumption|]. apply Qinv_lt_0_compat. assumption.
Qed.

Lemma Qdiv_nonneg (a b : Q) : 0 <= a -> 0 < b -> 0 <= a / b.
Proof.
  intros Ha Hb. unfold Qdiv.
  apply Qmult_le_0_compat; [assumption|].
  apply Qlt_le_weak, Qinv_lt_0_compat. assumption.
Qed.

(** ** Rounding *)

(** An integer below [x] is below its rounding, and one above is above. *)
Lemma round_half_even_ge (x : Q) (n : Z) :
  inject_Z n <= x -> (n <= round_half_even x)%Z.
Proof.
  intro H. unfold round_half_even.
  assert (Hf : (n <= Qfloor x)%Z).
  { rewrite <- (Qfloor_Z n). apply Qfloor_resp_le. exact H. }
  destruct (Qlt_bool _ _); [lia|].
  destruct (Qlt_bool _ _); [lia|].
  destruct (Z.even _); lia.
Qed.

Lemma round_half_even_le (x : Q) (n : Z) :
  x <= inject_Z n -> (round_half_even x <= n)%Z.
Proof.
  intro H. unfold round_half_even.
  pose proof (Qfloor_le x) as Hfl.
  assert (Hf : (Qfloor x <= n)%Z).
  { rewrite Zle_Qle. lra. }
  assert (Hup : inject_Z (Qfloor x) < x -> (Qfloor x + 1 <= n)%Z).
  { intro Hlt. assert (Hs : (Qfloor x < n)%Z) by (rewrite Zlt_Qlt; lra). lia. }
  case_Qlt (x - inject_Z (Qfloor x)) (1 # 2); [lia|].
  assert (Hlt : inject_Z (Qfloor x) < x) by lra.
  specialize (Hup Hlt).
  destruct (Qlt_bool _ _); [lia|].
  destruct (Z.even _); lia.
Qed.

Lemma py_round2_range (x : Q) : 0 <= x <= 10 -> 0 <= py_round2 x <= 10.
Proof.
  intros [H0 H10]. unfold py_round2.
  assert (Hlo : (0 <= round_half_even (x * 100))%Z).
  { apply round_half_even_ge. change (inject_Z 0) with 0. lra. }
  assert (Hhi : (round_half_even (x * 100) <= 1000)%Z).
  { apply round_half_even_le. change (inject_Z 1000) with 1000. lra. }
  unfold Qle; simpl. lia.
Qed.

(** The rounding of a number that is an integer is that integer. *)
Lemma round_half_even_Z (x : Q) (n : Z) : x == inject_Z n -> round_half_even x = n.
Proof.
  intro H. unfold round_half_even.
  assert (Hf : Qfloor x = n) by (rewrite H; apply Qfloor_Z).
  rewrite Hf.
  case_Qlt (x - inject_Z n) (1 # 2); [reflexivity|]. lra.
Qed.

Lemma py_round2_Z (x : Q) (n : Z) : x == inject_Z n -> py_round2 x == inject_Z n.
Proof.
  intro H. unfold py_round2.
  rewrite (round_half_even_Z (x * 100) (n * 100)).
  - unfold Qeq, inject_Z; simpl. lia.
  - rewrite H. unfold Qeq, inject_Z, Qmult; simpl. lia.
Qed.

(** ** The scoring engine *)

Lemma bind_ok {A B : Type} (m : result A) (k : A -> result B) (b : B) :
  bind m k = Ok b -> exists a, m = Ok a /\ k a = Ok b.
Proof. destruct m as [a|e]; simpl; [eauto | discriminate]. Qed.

(** Peel the binds of a successful computation. *)
Ltac bind_inv H :=
  repeat match type of H with
         | bind _ _ = Ok _ =>
             let a := fresh "v" in
             let Ha := fresh "Hv" in
             apply bind_ok in H; destruct H as (a & Ha & H)
         end.

Lemma score_single_option_inv opt constraints s :
  _score_single_option opt constraints = Ok s ->
  exists c l sc,
    raw_score Dim_cost opt constraints = Ok c /\
    raw_score Dim_latency opt constraints = Ok l /\
    raw_score Dim_scalability opt constraints = Ok sc /\
    s = OptionScore.mk
          (TechOption.name opt)
          (py_round2
             ((c + l + sc
               + _score_compliance (TechOption.compliance opt)
                                   (Constraints.compliance constraints)
               + _score_cloud (TechOption.cloud opt)
                              (Constraints.preferred_cloud constraints)
               + _score_skill (TechOption.team_skill_required opt)
                              (Constraints.team_skill constraints)) / 6))
          (py_round2 c) (py_round2 l) (py_round2 sc)
          (py_round2 (_score_compliance (TechOption.compliance opt)
                                        (Constraints.compliance constraints)))
          (py_round2 (_score_cloud (TechOption.cloud opt)
                                   (Constraints.preferred_cloud constraints)))
          (py_round2 (_score_skill (TechOption.team_skill_required opt)
                                   (Constraints.team_skill constraints)))
          (py_round2
             (weighted_total c l sc
                (_score_compliance (TechOption.compliance opt)
                                   (Constraints.compliance constraints))
                (_score_cloud (TechOption.cloud opt)
                              (Constraints.preferred_cloud constraints))
                (_score_skill (TechOption.team_skill_required opt)
                              (Constraints.team_skill constraints)))).
Proof.
  unfold _score_single_option. intro H. bind_inv H.
  exists v, v0, v1. simpl. repeat split; try assumption.
  injection H as <-. reflexivity.
Qed.

Lemma score_single_option_total opt constraints c l sc :
  raw_score Dim_cost opt constraints = Ok c ->
  raw_score Dim_latency opt constraints = Ok l ->
  raw_score Dim_scalability opt constraints = Ok sc ->
  exists s, _score_single_option opt constraints = Ok s.
Proof.
  simpl. intros Hc Hl Hs. unfold _score_single_option.
  rewrite Hc, Hl, Hs. simpl. eauto.
Qed.

(** Over-budget penalty: shared by cost and latency. *)
Lemma penalty_score_range (x limit : Q) :
  0 < limit -> limit < x ->
  0 <= py_max 0 (10 - (x - limit) / limit * 5) <= 10.
Proof.
  intros Hl Hx. split; [apply py_max_ge_l|].
  apply py_max_le; [lra|].
  assert (0 < (x - limit) / limit) by (apply Qdiv_pos; lra). lra.
Qed.

Lemma score_cost_range (option_cost budget_constraint : Q) :
  0 < budget_constraint ->
  exists q, _score_cost option_cost budget_constraint = Ok q /\ 0 <= q <= 10.
Proof.
  intro Hb. unfold _score_cost.
  case_Qle option_cost budget_constraint.
  - exists 10. split; [reflexivity | lra].
  - rewrite py_div_ok by lra. simpl. eexists; split; [reflexivity|].
    apply penalty_score_range; assumption.
Qed.

Lemma score_latency_range (option_latency latency_constraint : Q) :
  0 < latency_constraint ->
  exists q, _score_latency option_latency latency_constraint = Ok q /\ 0 <= q <= 10.
Proof.
  intro Hb. unfold _score_latency.
  case_Qle option_latency latency_constraint.
  - exists 10. split; [reflexivity | lra].
  - rewrite py_div_ok by lra. simpl. eexists; split; [reflexivity|].
    apply penalty_score_range; assumption.
Qed.

Lemma score_scalability_range (option_scalability required_scale : Q) :
  0 < required_scale ->
  exists q, _score_scalability option_scalability required_scale = Ok q
            /\ 0 <= q <= 10.
Proof.
  intro Hr. unfold _score_scalability.
  case_Qle required_scale option_scalability.
  - rewrite py_div_ok by lra. simpl. eexists; split; [reflexivity|].
    assert (0 <= (option_scalability - required_scale) / required_scale)
      by (apply Qdiv_nonneg; lra).
    split.
    + apply py_min_ge; [lra|].
      assert (0 <= py_min 2 ((option_scalability - required_scale) / required_scale))
        by (apply py_min_ge; lra).
      lra.
    + apply py_min_le_l.
  - rewrite py_div_ok by lra. simpl. eexists; split; [reflexivity|].
    split; [apply py_max_ge_l|].
    apply py_max_le; [lra|].
    assert (0 < (required_scale - option_scalability) / required_scale)
      by (apply Qdiv_pos; lra).
    lra.
Qed.

Lemma score_compliance_range a b : 0 <= _score_compliance a b <= 10.
Proof. destruct a, b; vm_compute; split; discriminate. Qed.

Lemma score_cloud_range a b : 0 <= _score_cloud a b <= 10.
Proof. destruct a, b as [[]|]; vm_compute; split; discriminate. Qed.

Lemma score_skill_range a b : 0 <= _score_skill a b <= 10.
Proof. destruct a, b; vm_compute; split; discriminate. Qed.

(** With positive budget, latency ceiling and scale floor, every dimension
    has a raw score, and it lies between 0 and 10. *)
Lemma raw_score_range d opt constraints :
  0 < Constraints.budget constraints ->
  0 < Constraints.max_latency constraints ->
  0 < Constraints.required_scale constraints ->
  exists raw, raw_score d opt constraints = Ok raw /\ 0 <= raw <= 10.
Proof.
  intros Hb Hl Hs. destruct d; simpl.
  - apply score_cost_range; assumption.
  - apply score_latency_range; assumption.
  - apply score_scalability_range; assumption.
  - eexists; split; [reflexivity | apply score_compliance_range].
  - eexists; split; [reflexivity | apply score_cloud_range].
  - eexists; split; [reflexivity | apply score_skill_range].
Qed.

Lemma score_single_option_returns opt constraints :
  0 < Constraints.budget constraints ->
  0 < Constraints.max_latency constraints ->
  0 < Constraints.required_scale constraints ->
  exists s, _score_single_option opt constraints = Ok s.
Proof.
  intros Hb Hl Hs.
  destruct (raw_score_range Dim_cost opt constraints Hb Hl Hs) as (c & Hc & _).
  destruct (raw_score_range Dim_latency opt constraints Hb Hl Hs) as (l & Hl' & _).
  destruct (raw_score_range Dim_scalability opt constraints Hb Hl Hs) as (sc & Hsc & _).
  eapply score_single_option_total; eassumption.
Qed.

(** A reported dimension score is the rounding of the raw one. *)
Lemma dimension_score_rounds d opt constraints s :
  _score_single_option opt constraints = Ok s ->
  exists raw, raw_score d opt constraints = Ok raw
              /\ dimension_score d s = py_round2 raw.
Proof.
  intro H. apply score_single_option_inv in H.
  destruct H as (c & l & sc & Hc & Hl & Hsc & ->).
  destruct d; simpl; eauto.
Qed.

(** C2, as stated, fails: an option of cost 2, latency 2 and scalability 9,
    scored against budget 8, latency ceiling 8 and required scale 5, does not
    get the scalability score 9.6. *)
Lemma C2_scalability_score_is_not_9_6 :
  ~ exists s,
      _score_single_option sample_option sample_constraints = Ok s
      /\ OptionScore.cost_score s == 10
      /\ OptionScore.latency_score s == 10
      /\ OptionScore.scalability_score s == 9.6.
Proof.
  intros (s & Hs & _ & _ & Hsc).
  vm_compute in Hs. injection Hs as <-.
  vm_compute in Hsc. discriminate.
Qed.

(** C2 (amended): whatever its other attributes, an option of cost 2,
    latency 2 and scalability 9, scored against budget 8, latency ceiling 8
    and required scale 5, gets cost score 10, latency score 10 and
    scalability score min(10, 8 + min(2, 4/5)) = 8.8, both before and after
    rounding. *)
Theorem C2_example_scores :
  forall name description compliance cloud skill pros cons
         required_compliance preferred_cloud team_skill,
    let opt := TechOption.mk name description 2 2 9 compliance cloud skill pros cons in
    let constraints :=
      Constraints.mk 8 8 5 required_compliance preferred_cloud team_skill in
    _score_cost 2 8 = Ok 10
    /\ _score_latency 2 8 = Ok 10
    /\ (exists raw, _score_scalability 9 5 = Ok raw
                    /\ raw == Qmin 10 (8 + Qmin 2 (4 / 5)) /\ raw == 8.8)
    /\ exists s,
        _score_single_option opt constraints = Ok s
        /\ OptionScore.cost_score s == 10
        /\ OptionScore.latency_score s == 10
        /\ OptionScore.scalability_score s == 8.8.
Proof.
  intros. repeat split.
  - eexists. split; [vm_compute; reflexivity|]. split; vm_compute; reflexivity.
  - eexists. split; [reflexivity|].
    repeat split; vm_compute; reflexivity.
Qed.



(** The order matters: for [fractional_option] the weighted score is 8.36,
    while the same combination of the rounded dimension scores rounds to
    8.35. *)
Lemma weighted_score_not_from_rounded_scores :
  exists s, _score_single_option fractional_option fractional_constraints = Ok s
    /\ OptionScore.weighted_score s == 8.36
    /\ py_round2 (weighted_total
                    (OptionScore.cost_score s) (OptionScore.latency_score s)
                    (OptionScore.scalability_score s)
                    (OptionScore.compliance_score s)
                    (OptionScore.cloud_score s) (OptionScore.skill_score s))
       == 8.35.
Proof.
  eexists. split; [reflexivity|]. split; vm_compute; reflexivity.
Qed.

(** C4: when the option's cost, latency and scalability and the constraints'
    budget, latency ceiling and required scale lie on the 1-10 scale, the
    option is scored, and each of its six dimension scores, before rounding
    and as reported, lies in [0,10]. *)
Theorem C4_dimension_scores_in_range :
  forall opt constraints,
    on_scale (TechOption.cost opt) ->
    on_scale (TechOption.latency opt) ->
    on_scale (TechOption.scalability opt) ->
    on_scale (Constraints.budget constraints) ->
    on_scale (Constraints.max_latency constraints) ->
    on_scale (Constraints.required_scale constraints) ->
    exists s,
      _score_single_option opt constraints = Ok s
      /\ forall d,
          0 <= dimension_score d s <= 10
          /\ exists raw, raw_score d opt constraints = Ok raw
                         /\ 0 <= raw <= 10
                         /\ dimension_score d s = py_round2 raw.
Proof.
  unfold on_scale. intros opt constraints _ _ _ Hb Hl Hs.
  assert (Hb' : 0 < Constraints.budget constraints) by lra.
  assert (Hl' : 0 < Constraints.max_latency constraints) by lra.
  assert (Hs' : 0 < Constraints.required_scale constraints) by lra.
  destruct (score_single_option_returns opt constraints Hb' Hl' Hs') as (s & Hsc).
  exists s. split; [assumption|]. intro d.
  destruct (dimension_score_rounds d opt constraints s Hsc) as (raw & Hraw & Hround).
  destruct (raw_score_range d opt constraints Hb' Hl' Hs') as (raw' & Hraw' & Hrange).
  assert (raw' = raw) by congruence. subst raw'.
  split.
  - rewrite Hround. apply py_round2_range. assumption.
  - exists raw. auto.
Qed.

Lemma C4_dimension_scores_in_range_witness :
  exists s,
    _score_single_option sample_rival sample_constraints = Ok s
    /\ forall d,
        0 <= dimension_score d s <= 10
        /\ exists raw, raw_score d sample_rival sample_constraints = Ok raw
                       /\ 0 <= raw <= 10
                       /\ dimension_score d s = py_round2 raw.
Proof.
  apply (C4_dimension_scores_in_range sample_rival sample_constraints);
    unfold on_scale; simpl; lra.
Defined.

(** C7: with ranks beginner=1, intermediate=2, advanced=3, expert=4, the skill
    score of an option is computed from the option's required skill and the
    constraints' team skill: it is 10 when the team's rank is at least the
    required rank and max(0, 10 - 3*(required rank - team rank)) when the
    team's rank is below it, so it is below 10 exactly when the team's rank
    is below the required rank; the reported score is the same number. *)
Theorem C7_skill_score :
  forall opt constraints,
    let required_rank := spec_skill_rank (TechOption.team_skill_required opt) in
    let team_rank := spec_skill_rank (Constraints.team_skill constraints) in
    exists raw,
      raw_score Dim_skill opt constraints = Ok raw
      /\ (required_rank <= team_rank -> raw == 10)
      /\ (team_rank < required_rank ->
          raw == Qmax 0 (10 - 3 * (required_rank - team_rank)))
      /\ (raw < 10 <-> team_rank < required_rank)
      /\ raw == spec_skill_score required_rank team_rank
      /\ forall s, _score_single_option opt constraints = Ok s ->
                   OptionScore.skill_score s == raw.
Proof.
  intros opt constraints required_rank team_rank.
  exists (_score_skill (TechOption.team_skill_required opt)
                       (Constraints.team_skill constraints)).
  split; [reflexivity|].
  assert (Hround :
    forall s, _score_single_option opt constraints = Ok s ->
      OptionScore.skill_score s
      == _score_skill (TechOption.team_skill_required opt)
                      (Constraints.team_skill constraints)).
  { intros s H. apply score_single_option_inv in H.
    destruct H as (c & l & sc & _ & _ & _ & ->). simpl.
    destruct (TechOption.team_skill_required opt), (Constraints.team_skill constraints);
      vm_compute; reflexivity. }
  subst required_rank team_rank.
  destruct (TechOption.team_skill_required opt), (Constraints.team_skill constraints);
    (split; [|split; [|split; [|split; [|exact Hround]]]]);
    try (vm_compute; reflexivity);
    try (split; intro Hcmp; vm_compute in Hcmp; try discriminate;
         vm_compute; reflexivity);
    intro Hcmp; vm_compute in Hcmp; try discriminate;
    try (exfalso; apply Hcmp; reflexivity);
    vm_compute; reflexivity.
Qed.

Lemma C7_skill_score_witness :
  exists s,
    _score_single_option sample_rival
                         (Constraints.mk 8 8 5 BASIC None INTERMEDIATE) = Ok s
    /\ OptionScore.skill_score s == 4.
Proof.
  destruct (C7_skill_score sample_rival
              (Constraints.mk 8 8 5 BASIC None INTERMEDIATE))
    as (raw & _ & _ & Hgap & _ & _ & Hreported).
  eexists. split; [reflexivity|].
  rewrite (Hreported _ eq_refl), Hgap; vm_compute; reflexivity.
Defined.

(** ** [sorted(..., reverse=True)] *)

Section SortedReverseFacts.
Context {A : Type} (key : A -> Q).

Let desc (a b : A) : Prop := key b <= key a.
Let has_key (w : Q) (x : A) : bool := Qeq_bool (key x) w.

Lemma insert_desc_perm (x : A) (l : list A) :
  Permutation (x :: l) (insert_desc key x l).
Proof.
  induction l as [|y l IH]; simpl.
  - apply Permutation_refl.
  - destruct (Qlt_bool (key x) (key y)).
    + eapply perm_trans; [apply perm_swap|]. apply perm_skip. exact IH.
    + apply Permutation_refl.
Qed.

Lemma sorted_reverse_perm (l : list A) : Permutation l (sorted_reverse key l).
Proof.
  induction l as [|x l IH]; simpl.
  - constructor.
  - eapply perm_trans; [apply perm_skip; exact IH | apply insert_desc_perm].
Qed.

Lemma insert_desc_sorted (x : A) (l : list A) :
  StronglySorted desc l -> StronglySorted desc (insert_desc key x l).
Proof.
  induction 1 as [|y l Hsorted IH Hall]; simpl.
  - repeat constructor.
  - case_Qlt (key x) (key y).
    + constructor; [exact IH|].
      eapply Permutation_Forall; [apply insert_desc_perm|].
      constructor; [unfold desc; lra | exact Hall].
    + constructor; [constructor; assumption|].
      constructor; [exact E|].
      eapply Forall_impl; [|exact Hall].
      unfold desc. intros z Hz. lra.
Qed.

Lemma sorted_reverse_sorted (l : list A) : StronglySorted desc (sorted_reverse key l).
Proof.
  induction l as [|x l IH]; simpl.
  - constructor.
  - apply insert_desc_sorted. exact IH.
Qed.

(** Insertion moves an element only past elements of another key. *)
Lemma insert_desc_filter (w : Q) (x : A) (l : list A) :
  filter (has_key w) (insert_desc key x l) = filter (has_key w) (x :: l).
Proof.
  induction l as [|y l IH]; [reflexivity|].
  simpl insert_desc. case_Qlt (key x) (key y); [|reflexivity].
  simpl filter in *. rewrite IH.
  unfold has_key.
  destruct (Qeq_bool (key x) w) eqn:Ex, (Qeq_bool (key y) w) eqn:Ey;
    try reflexivity.
  apply Qeq_bool_iff in Ex. apply Qeq_bool_iff in Ey. lra.
Qed.

Lemma sorted_reverse_stable (w : Q) (l : list A) :
  filter (has_key w) (sorted_reverse key l) = filter (has_key w) l.
Proof.
  induction l as [|x l IH]; [reflexivity|].
  simpl sorted_reverse. rewrite insert_desc_filter. simpl. rewrite IH. reflexivity.
Qed.
End SortedReverseFacts.

Lemma mapM_total {A B : Type} (f : A -> result B) (l : list A) :
  Forall (fun x => exists y, f x = Ok y) l ->
  exists ys, mapM f l = Ok ys /\ Forall2 (fun x y => f x = Ok y) l ys.
Proof.
  induction 1 as [|x l (y & Hy) _ (ys & Hys & Hall)]; simpl.
  - exists []. split; [reflexivity | constructor].
  - exists (y :: ys). rewrite Hy, Hys. simpl. split; [reflexivity|].
    constructor; assumption.
Qed.

(** C5: when every option can be scored, [score_options] returns the scores
    of the options, one per option, reordered so that the weighted score
    never increases along the list, and for every value of the weighted score
    the scores of that value stand in the order of the input. *)
Theorem C5_score_options_sorted_stable :
  forall options constraints,
    Forall (fun opt => exists s, _score_single_option opt constraints = Ok s) options ->
    exists scores out,
      Forall2 (fun opt s => _score_single_option opt constraints = Ok s) options scores
      /\ score_options options constraints = Ok out
      /\ Permutation scores out
      /\ StronglySorted
           (fun a b => OptionScore.weighted_score b <= OptionScore.weighted_score a) out
      /\ forall w,
          filter (fun s => Qeq_bool (OptionScore.weighted_score s) w) out
          = filter (fun s => Qeq_bool (OptionScore.weighted_score s) w) scores.
Proof.
  intros options constraints Hall.
  destruct (mapM_total _ _ Hall) as (scores & Hscores & Hall2).
  exists scores, (sorted_reverse OptionScore.weighted_score scores).
  split; [exact Hall2|].
  split; [unfold score_options; rewrite Hscores; reflexivity|].
  split; [apply sorted_reverse_perm|].
  split; [apply sorted_reverse_sorted|].
  intro w. apply sorted_reverse_stable.
Qed.

Lemma C5_score_options_sorted_stable_witness :
  exists out,
    score_options sample_options sample_constraints = Ok out
    /\ map OptionScore.option_name out
       = ["Managed SQL"; "Managed SQL replica"; "Self-hosted"]
    /\ StronglySorted
         (fun a b => OptionScore.weighted_score b <= OptionScore.weighted_score a) out.
Proof.
  destruct (C5_score_options_sorted_stable sample_options sample_constraints)
    as (scores & out & _ & Hout & _ & Hsorted & _).
  - repeat constructor; eexists; reflexivity.
  - exists out. split; [exact Hout|]. split; [|exact Hsorted].
    vm_compute in Hout. injection Hout as <-. reflexivity.
Defined.

(** ** Loops that extend a list *)

Lemma for_extend_app {A B : Type} (f : A -> result (list B)) (l1 l2 : list A) :
  for_extend f (l1 ++ l2)
  = (ys <- for_extend f l1 ;; zs <- for_extend f l2 ;; Ok (ys ++ zs)).
Proof.
  induction l1 as [|x l1 IH]; simpl.
  - destruct (for_extend f l2); reflexivity.
  - destruct (f x) as [b|e]; simpl; [|reflexivity].
    rewrite IH.
    destruct (for_extend f l1) as [ys|e]; simpl; [|reflexivity].
    destruct (for_extend f l2) as [zs|e]; simpl; [|reflexivity].
    rewrite app_assoc. reflexivity.
Qed.

Lemma for_extend_map {A B C : Type} (f : B -> result (list C)) (g : A -> B)
      (l : list A) :
  for_extend f (map g l) = for_extend (fun x => f (g x)) l.
Proof.
  induction l as [|x l IH]; simpl; [reflexivity|]. rewrite IH. reflexivity.
Qed.

(** Two nested loops are one loop over the pairs. *)
Lemma for_extend_nested {A B C : Type} (g : A -> B -> result (list C))
      (h : A -> list B) (l : list A) :
  for_extend (fun i => for_extend (g i) (h i)) l
  = for_extend (fun p => g (fst p) (snd p))
               (flat_map (fun i => map (pair i) (h i)) l).
Proof.
  induction l as [|i l IH]; simpl; [reflexivity|].
  rewrite for_extend_app, for_extend_map, IH. reflexivity.
Qed.

Lemma for_extend_ok {A B : Type} (f : A -> result (list B)) (l : list A)
      (out : list B) :
  for_extend f l = Ok out <->
  exists blocks, Forall2 (fun x block => f x = Ok block) l blocks
                 /\ out = List.concat blocks.
Proof.
  revert out. induction l as [|x l IH]; intro out; simpl.
  - split.
    + intros [= <-]. exists []. split; [constructor | reflexivity].
    + intros (blocks & Hall & ->). inversion Hall. reflexivity.
  - split.
    + intro H. bind_inv H. injection H as <-.
      apply IH in Hv0. destruct Hv0 as (blocks & Hall & ->).
      exists (v :: blocks). split; [constructor; assumption | reflexivity].
    + intros (blocks & Hall & ->). inversion Hall as [|? block ? rest Hx Hrest]; subst.
      rewrite Hx. simpl.
      assert (Hl : for_extend f l = Ok (List.concat rest)) by (apply IH; eauto).
      rewrite Hl. reflexivity.
Qed.

Lemma for_extend_total {A B : Type} (f : A -> result (list B)) (l : list A) :
  Forall (fun x => exists block, f x = Ok block) l ->
  exists out, for_extend f l = Ok out.
Proof.
  induction 1 as [|x l (block & Hx) _ (out & Hout)]; simpl.
  - eauto.
  - rewrite Hx, Hout. simpl. eauto.
Qed.

Lemma Forall2_In_l {A B : Type} (R : A -> B -> Prop) (l : list A) (l' : list B) (x : A) :
  Forall2 R l l' -> In x l -> exists y, In y l' /\ R x y.
Proof.
  induction 1 as [|a b l l' Hab _ IH]; simpl; [tauto|].
  intros [<- | Hin].
  - eauto.
  - destruct (IH Hin) as (y & Hy & Hxy). eauto.
Qed.

Lemma Forall2_In_r {A B : Type} (R : A -> B -> Prop) (l : list A) (l' : list B) (y : B) :
  Forall2 R l l' -> In y l' -> exists x, In x l /\ R x y.
Proof.
  induction 1 as [|a b l l' Hab _ IH]; simpl; [tauto|].
  intros [<- | Hin].
  - eauto.
  - destruct (IH Hin) as (x & Hx & Hxy). eauto.
Qed.

(** ** The trade-off generator *)

Lemma in_index_pairs (n i j : nat) :
  In (i, j) (index_pairs n) <-> (i < j < n)%nat.
Proof.
  unfold index_pairs. rewrite in_flat_map. split.
  - intros (i' & Hi' & Hin). apply in_map_iff in Hin.
    destruct Hin as (j' & [= <- <-] & Hj'). apply in_seq in Hi'. apply in_seq in Hj'. lia.
  - intros [Hij Hjn]. exists i. split; [apply in_seq; lia|].
    apply in_map_iff. exists j. split; [reflexivity|]. apply in_seq. lia.
Qed.

Lemma generate_tradeoffs_pairs options scores :
  generate_tradeoffs options scores
  = for_extend (pair_tradeoffs options scores) (index_pairs (List.length options)).
Proof.
  unfold generate_tradeoffs, index_pairs.
  rewrite (for_extend_nested
             (fun i j => pair_tradeoffs options scores (i, j))).
  reflexivity.
Qed.

Lemma pair_tradeoffs_ok options scores p block :
  pair_tradeoffs options scores p = Ok block <->
  exists option_a option_b score_a score_b,
    nth_error options (fst p) = Some option_a
    /\ nth_error options (snd p) = Some option_b
    /\ score_lookup scores (TechOption.name option_a) = Ok score_a
    /\ score_lookup scores (TechOption.name option_b) = Ok score_b
    /\ block = _compare_options option_a option_b score_a score_b.
Proof.
  unfold pair_tradeoffs, list_index. split.
  - intro H. bind_inv H. injection H as <-.
    destruct (nth_error options (fst p)) as [oa|]; [|discriminate].
    destruct (nth_error options (snd p)) as [ob|]; [|discriminate].
    injection Hv as <-. injection Hv0 as <-.
    exists oa, ob, v1, v2. auto.
  - intros (oa & ob & sa & sb & Ha & Hb & Hsa & Hsb & ->).
    rewrite Ha, Hb. simpl. rewrite Hsa, Hsb. reflexivity.
Qed.

(** When every option has a score under its name, the generator returns. *)
Lemma generate_tradeoffs_total options scores :
  (forall opt, In opt options ->
               exists s, score_lookup scores (TechOption.name opt) = Ok s) ->
  exists out, generate_tradeoffs options scores = Ok out.
Proof.
  intro Hscores. rewrite generate_tradeoffs_pairs.
  apply for_extend_total. apply Forall_forall. intros [i j] Hin.
  apply in_index_pairs in Hin.
  destruct (nth_error options i) as [oa|] eqn:Ha;
    [|apply nth_error_None in Ha; lia].
  destruct (nth_error options j) as [ob|] eqn:Hb;
    [|apply nth_error_None in Hb; lia].
  destruct (Hscores oa (nth_error_In _ _ Ha)) as (sa & Hsa).
  destruct (Hscores ob (nth_error_In _ _ Hb)) as (sb & Hsb).
  eexists. apply pair_tradeoffs_ok. exists oa, ob, sa, sb. simpl. auto.
Qed.


Lemma Qabs_gt_cases (x c : Q) : c < Qabs x -> x < - c \/ c < x.
Proof.
  intro H. destruct (Qlt_le_dec x 0) as [Hneg | Hpos].
  - left. rewrite Qabs_neg in H by lra. lra.
  - right. rewrite Qabs_pos in H by lra. lra.
Qed.

(** The trade-off that the block of dimension [d] builds when it fires. *)
Lemma compare_on_cases d option_a option_b score_a score_b :
  (1 < score_gap d score_a score_b
   /\ compare_on d option_a option_b score_a score_b
      = [TradeOff.mk
           (TechOption.name option_a) (TechOption.name option_b)
           (dimension_name d)
           (if Qlt_bool (dimension_score d score_b) (dimension_score d score_a)
            then TechOption.name option_a else TechOption.name option_b)
           ((if Qlt_bool (dimension_score d score_b) (dimension_score d score_a)
             then TechOption.name option_a else TechOption.name option_b)
              ^^ dimension_phrase d
              ^^ (if String.eqb
                       (if Qlt_bool (dimension_score d score_b)
                                    (dimension_score d score_a)
                        then TechOption.name option_a else TechOption.name option_b)
                       (TechOption.name option_a)
                  then TechOption.name option_b else TechOption.name option_a))
           (_calculate_impact (score_gap d score_a score_b))])
  \/ (score_gap d score_a score_b <= 1
      /\ compare_on d option_a option_b score_a score_b = []).
Proof.
  unfold compare_on, compare_block, score_gap.
  case_Qlt 1 (Qabs (dimension_score d score_a - dimension_score d score_b)).
  - left. split; [assumption | reflexivity].
  - right. split; [assumption | reflexivity].
Qed.

Lemma compare_on_dimension d option_a option_b score_a score_b t :
  In t (compare_on d option_a option_b score_a score_b) ->
  TradeOff.dimension t = dimension_name d.
Proof.
  destruct (compare_on_cases d option_a option_b score_a score_b)
    as [(_ & ->) | (_ & ->)]; simpl; [|tauto].
  intros [<- | []]. reflexivity.
Qed.



Lemma in_compare_options option_a option_b score_a score_b t :
  In t (_compare_options option_a option_b score_a score_b) <->
  exists d, In t (compare_on d option_a option_b score_a score_b).
Proof.
  unfold _compare_options. rewrite !in_app_iff. split.
  - intros [H | [H | [H | [H | [H | H]]]]]; eauto.
  - intros ([] & H); tauto.
Qed.

Lemma compare_options_fields option_a option_b score_a score_b t :
  In t (_compare_options option_a option_b score_a score_b) ->
  TradeOff.option_a t = TechOption.name option_a
  /\ TradeOff.option_b t = TechOption.name option_b
  /\ (TradeOff.winner t = TradeOff.option_a t
      \/ TradeOff.winner t = TradeOff.option_b t).
Proof.
  intro H. apply in_compare_options in H. destruct H as (d & H).
  destruct (compare_on_cases d option_a option_b score_a score_b)
    as [(_ & Heq) | (_ & Heq)]; rewrite Heq in H; simpl in H; [|tauto].
  destruct H as [<- | []]. simpl.
  destruct (Qlt_bool _ _); auto.
Qed.

Lemma compare_options_order option_a option_b score_a score_b :
  is_subsequence
    (map TradeOff.dimension (_compare_options option_a option_b score_a score_b))
    dimensions = true.
Proof.
  unfold _compare_options.
  destruct (compare_on_cases Dim_cost option_a option_b score_a score_b)
    as [(_ & ->) | (_ & ->)];
  destruct (compare_on_cases Dim_latency option_a option_b score_a score_b)
    as [(_ & ->) | (_ & ->)];
  destruct (compare_on_cases Dim_scalability option_a option_b score_a score_b)
    as [(_ & ->) | (_ & ->)];
  destruct (compare_on_cases Dim_compliance option_a option_b score_a score_b)
    as [(_ & ->) | (_ & ->)];
  destruct (compare_on_cases Dim_cloud option_a option_b score_a score_b)
    as [(_ & ->) | (_ & ->)];
  destruct (compare_on_cases Dim_skill option_a option_b score_a score_b)
    as [(_ & ->) | (_ & ->)];
  reflexivity.
Qed.

(** The output of the generator is the blocks of the index pairs, in the
    order of the loops. *)
Lemma generate_tradeoffs_blocks options scores out :
  generate_tradeoffs options scores = Ok out <->
  exists blocks,
    Forall2 (fun p block => pair_tradeoffs options scores p = Ok block)
            (index_pairs (List.length options)) blocks
    /\ out = List.concat blocks.
Proof. rewrite generate_tradeoffs_pairs. apply for_extend_ok. Qed.

Lemma in_generate_tradeoffs options scores out t :
  generate_tradeoffs options scores = Ok out ->
  (In t out <->
   exists i j option_a option_b score_a score_b,
     (i < j)%nat
     /\ nth_error options i = Some option_a
     /\ nth_error options j = Some option_b
     /\ score_lookup scores (TechOption.name option_a) = Ok score_a
     /\ score_lookup scores (TechOption.name option_b) = Ok score_b
     /\ In t (_compare_options option_a option_b score_a score_b)).
Proof.
  intro H. apply generate_tradeoffs_blocks in H.
  destruct H as (blocks & Hall & ->). rewrite in_concat. split.
  - intros (block & Hblock & Ht).
    destruct (Forall2_In_r _ _ _ _ Hall Hblock) as ([i j] & Hp & Hbody).
    apply in_index_pairs in Hp. apply pair_tradeoffs_ok in Hbody.
    destruct Hbody as (oa & ob & sa & sb & Ha & Hb & Hsa & Hsb & ->).
    exists i, j, oa, ob, sa, sb. simpl in *. repeat split; try assumption; lia.
  - intros (i & j & oa & ob & sa & sb & Hij & Ha & Hb & Hsa & Hsb & Ht).
    assert (Hp : In (i, j) (index_pairs (List.length options))).
    { apply in_index_pairs. split; [assumption|].
      apply nth_error_Some. congruence. }
    destruct (Forall2_In_l _ _ _ _ Hall Hp) as (block & Hblock & Hbody).
    exists block. split; [assumption|].
    apply pair_tradeoffs_ok in Hbody.
    destruct Hbody as (oa' & ob' & sa' & sb' & Ha' & Hb' & Hsa' & Hsb' & ->).
    simpl in *. congruence.
Qed.

(** The scores that [score_options] returns can be looked up under the name
    of every option that was scored. *)
Lemma score_lookup_after_scoring options constraints scores :
  score_options options constraints = Ok scores ->
  forall opt, In opt options ->
              exists s, score_lookup scores (TechOption.name opt) = Ok s.
Proof.
  unfold score_options. intros H opt Hin. bind_inv H. injection H as <-.
  assert (Hall : Forall2 (fun o s => _score_single_option o constraints = Ok s)
                         options v).
  { clear Hin. revert v Hv. induction options as [|o options IH]; simpl; intros v Hv.
    - injection Hv as <-. constructor.
    - bind_inv Hv. injection Hv as <-. constructor; auto. }
  destruct (Forall2_In_l _ _ _ _ Hall Hin) as (s & Hs & Hscore).
  apply score_single_option_inv in Hscore.
  destruct Hscore as (c & l & sc & _ & _ & _ & Heq).
  assert (Hname : OptionScore.option_name s = TechOption.name opt)
    by (rewrite Heq; reflexivity).
  unfold score_lookup.
  destruct (find _ _) as [found|] eqn:Hfind; [eauto|].
  exfalso.
  assert (Hrev : In s (rev (sorted_reverse OptionScore.weighted_score v))).
  { apply in_rev. rewrite rev_involutive.
    eapply Permutation_in; [apply sorted_reverse_perm | exact Hs]. }
  pose proof (find_none _ _ Hfind s Hrev) as Hno. simpl in Hno.
  rewrite Hname, String.eqb_refl in Hno. discriminate.
Qed.



(** C10: the generator returns when every option has a score under its name.
    What it returns is the concatenation of one block per pair of positions
    i < j, taken in the order of the loops; in the block of a pair every
    trade-off has the option at i as option_a and the option at j as
    option_b, and the dimensions of the block read off the fixed order cost,
    latency, scalability, compliance, cloud, skill from left to right.  The
    winner of every trade-off is its option_a or its option_b. *)
Theorem C10_tradeoff_orientation_and_order :
  forall options scores,
    ((forall opt, In opt options ->
                  exists s, score_lookup scores (TechOption.name opt) = Ok s) ->
     exists out, generate_tradeoffs options scores = Ok out)
    /\ forall out,
        generate_tradeoffs options scores = Ok out ->
        (forall t,
            In t out ->
            (exists i j option_a option_b,
                (i < j)%nat
                /\ nth_error options i = Some option_a
                /\ nth_error options j = Some option_b
                /\ TradeOff.option_a t = TechOption.name option_a
                /\ TradeOff.option_b t = TechOption.name option_b)
            /\ (TradeOff.winner t = TradeOff.option_a t
                \/ TradeOff.winner t = TradeOff.option_b t))
        /\ exists blocks,
            out = List.concat blocks
            /\ Forall2
                 (fun p block =>
                    exists option_a option_b,
                      (fst p < snd p)%nat
                      /\ nth_error options (fst p) = Some option_a
                      /\ nth_error options (snd p) = Some option_b
                      /\ (forall t, In t block ->
                                    TradeOff.option_a t = TechOption.name option_a
                                    /\ TradeOff.option_b t = TechOption.name option_b)
                      /\ is_subsequence (map TradeOff.dimension block) dimensions
                         = true)
                 (index_pairs (List.length options)) blocks.
Proof.
  intros options scores. split; [apply generate_tradeoffs_total|].
  intros out Hout. split.
  - intros t Ht. apply (in_generate_tradeoffs _ _ _ _ Hout) in Ht.
    destruct Ht as (i & j & oa & ob & sa & sb & Hij & Ha & Hb & _ & _ & Ht).
    apply compare_options_fields in Ht. destruct Ht as (Hta & Htb & Hw).
    split; [|exact Hw]. exists i, j, oa, ob. auto.
  - apply generate_tradeoffs_blocks in Hout.
    destruct Hout as (blocks & Hall & ->).
    exists blocks. split; [reflexivity|].
    assert (Hpairs : Forall (fun p => (fst p < snd p)%nat)
                            (index_pairs (List.length options))).
    { apply Forall_forall. intros [i j] Hp. apply in_index_pairs in Hp. simpl. lia. }
    induction Hall as [|p block ps blocks Hbody _ IH]; [constructor|].
    inversion Hpairs as [|? ? Hp Hps]; subst.
    constructor; [|apply IH; exact Hps].
    apply pair_tradeoffs_ok in Hbody.
    destruct Hbody as (oa & ob & sa & sb & Ha & Hb & _ & _ & ->).
    exists oa, ob.
    split; [exact Hp|]. split; [exact Ha|]. split; [exact Hb|].
    split; [|apply compare_options_order].
    intros t Ht. apply compare_options_fields in Ht. tauto.
Qed.

Lemma C10_tradeoff_orientation_and_order_witness :
  exists out,
    generate_tradeoffs sample_options strict_scores = Ok out
    /\ map (fun t => (TradeOff.option_a t, TradeOff.option_b t, TradeOff.dimension t))
           out
       = [("Self-hosted", "Managed SQL", "cost");
          ("Self-hosted", "Managed SQL", "latency");
          ("Self-hosted", "Managed SQL", "scalability");
          ("Self-hosted", "Managed SQL", "compliance");
          ("Self-hosted", "Managed SQL", "cloud");
          ("Self-hosted", "Managed SQL", "skill");
          ("Self-hosted", "Managed SQL replica", "cost");
          ("Self-hosted", "Managed SQL replica", "latency");
          ("Self-hosted", "Managed SQL replica", "scalability");
          ("Self-hosted", "Managed SQL replica", "compliance");
          ("Self-hosted", "Managed SQL replica", "cloud");
          ("Self-hosted", "Managed SQL replica", "skill")]
    /\ forall t, In t out ->
                 TradeOff.winner t = TradeOff.option_a t
                 \/ TradeOff.winner t = TradeOff.option_b t.
Proof.
  destruct (C10_tradeoff_orientation_and_order sample_options strict_scores)
    as [Htotal Hout].
  destruct Htotal as (out & Heq).
  { intros opt [<- | [<- | [<- | []]]]; eexists; reflexivity. }
  destruct (Hout out Heq) as [Hfields _].
  exists out. split; [exact Heq|]. split.
  - vm_compute in Heq. injection Heq as <-. reflexivity.
  - intros t Ht. apply (Hfields t Ht).
Defined.

(** ** The narrative *)

(** Outside the cost, performance and compliance concerns, and unless the
    risk tolerance is low, the only recommendation is the closing one. *)
Lemma generate_recommendations_single options scores tradeoffs context recs :
  _generate_recommendations options scores tradeoffs context = Ok recs ->
  String.eqb (Context.primary_concern context) "cost" = false ->
  String.eqb (Context.primary_concern context) "performance" = false ->
  String.eqb (Context.primary_concern context) "compliance" = false ->
  String.eqb (Context.risk_tolerance context) "low" = false ->
  List.length recs = 1%nat.
Proof.
  unfold _generate_recommendations. intros H Hcost Hperf Hcomp Hrisk.
  rewrite Hcost, Hperf, Hcomp, Hrisk in H. simpl in H.
  bind_inv H. injection H as <-. reflexivity.
Qed.

(** C8 fails on the code: for two options, constraints that single out no
    concern (budget and latency ceiling above 3, basic compliance, an expert
    team) and a use case without a risk keyword, the comparison returns
    exactly one recommendation. *)
Theorem C8_single_recommendation :
  exists result_,
    DecisionEngine.compare balanced_request = Ok result_
    /\ List.length (ComparisonRequest.options balanced_request) = 2%nat
    /\ KiroAnalysis.recommendations (ComparisonResult.kiro_analysis result_)
       = ["Choice depends on priorities: Managed SQL for overall balance, Managed SQL for cost, Managed SQL for performance"].
Proof.
  eexists. split; [vm_compute; reflexivity|]. split; reflexivity.
Qed.

(** ** The request handlers *)

(** C1 fails on the code: [validate_request] would reject a request of one
    option and a request whose use case is blank, but [POST /compare] never
    calls it: both requests are scored, written to the store and answered
    with status 200.  A request of no option at all is scored too (to the
    empty list); it fails later, in the narrative, with an [IndexError] that
    is answered with status 500, and only for that reason nothing is
    stored. *)
Theorem C1_invalid_requests_are_scored_and_stored :
  DecisionEngine.validate_request single_option_request
  = Raise (ValueError "At least 2 options are required for comparison")
  /\ DecisionEngine.validate_request blank_use_case_request
     = Raise (ValueError "Use case description is required")
  /\ (forall request,
      request = single_option_request \/ request = blank_use_case_request ->
      forall uuid now,
      exists db' result_,
        compare_options Database.empty uuid now request = (db', Ok result_)
        /\ http_status (snd (compare_options Database.empty uuid now request)) = 200%nat
        /\ map Database.id (Database.comparisons db') = [uuid]
        /\ map Database.option_name (Database.comparison_options db')
           = map TechOption.name (ComparisonRequest.options request)
        /\ ComparisonResult.comparison_id result_ = Some uuid
        /\ List.length (ComparisonResult.scores result_)
           = List.length (ComparisonRequest.options request))
  /\ score_options (ComparisonRequest.options empty_request)
                   (ComparisonRequest.constraints empty_request) = Ok []
  /\ DecisionEngine.compare empty_request = Raise IndexError
  /\ forall uuid now,
      fst (compare_options Database.empty uuid now empty_request) = Database.empty
      /\ http_status (snd (compare_options Database.empty uuid now empty_request))
         = 500%nat.
Proof.
  split; [reflexivity|]. split; [reflexivity|]. split; [|repeat split].
  intros request [-> | ->] uuid now.
  - do 2 eexists. split; [vm_compute; reflexivity|]. repeat split.
  - do 2 eexists. split; [vm_compute; reflexivity|]. repeat split.
Qed.

Lemma C1_invalid_requests_are_scored_and_stored_witness :
  exists db',
    fst (compare_options Database.empty "0c1f" "2024-01-01T00:00:00"
                         single_option_request) = db'
    /\ map Database.id (Database.comparisons db') = ["0c1f"].
Proof.
  destruct C1_invalid_requests_are_scored_and_stored as (_ & _ & H & _).
  destruct (H single_option_request (or_introl eq_refl) "0c1f" "2024-01-01T00:00:00")
    as (db' & result_ & Heq & _ & Hids & _).
  exists db'. rewrite Heq. split; [reflexivity | exact Hids].
Defined.

(** C9 fails on the code: when the store can be opened and holds no row of
    the id, [GET /comparisons/{id}] raises the 404 inside its own
    [try], the handler of [Exception] catches it, and the response has
    status 500, the status of a store that cannot be opened. *)
Theorem C9_not_found_is_reported_as_500 :
  forall db comparison_id,
    (forall row, In row (Database.comparisons db) ->
                 Database.id row <> comparison_id) ->
    (exists detail,
        get_comparison db comparison_id = Raise (HTTPException 500 detail))
    /\ http_status (get_comparison db comparison_id) = 500%nat
    /\ http_status (get_comparison db comparison_id)
       = http_status (get_comparison unreachable_database comparison_id).
Proof.
  intros db comparison_id Hfresh.
  assert (Hfind :
    find (fun row => String.eqb (Database.id row) comparison_id)
         (Database.comparisons db) = None).
  { destruct (find _ _) as [row|] eqn:E; [|reflexivity].
    apply find_some in E. destruct E as [Hin Heq].
    apply String.eqb_eq in Heq. exfalso. exact (Hfresh row Hin Heq). }
  unfold get_comparison, Database.get_comparison, Database.connect.
  destruct (Database.connectable db); simpl; rewrite ?Hfind; simpl; eauto.
Qed.

Lemma C9_not_found_is_reported_as_500_witness :
  http_status (get_comparison Database.empty "missing") = 500%nat.
Proof.
  apply (C9_not_found_is_reported_as_500 Database.empty "missing").
  intros row [].
Defined.


(** * Further properties of the code *)

(** ** Rounding to two decimals *)

Lemma round_half_even_floor (x : Q) :
  (Qfloor x <= round_half_even x <= Qfloor x + 1)%Z.
Proof.
  unfold round_half_even.
  destruct (Qlt_bool _ _); [lia|].
  destruct (Qlt_bool _ _); [lia|].
  destruct (Z.even _); lia.
Qed.

Lemma round_half_even_error (x : Q) :
  - (1 # 2) <= inject_Z (round_half_even x) - x <= 1 # 2.
Proof.
  pose proof (Qfloor_le x) as Hlo. pose proof (Qlt_floor x) as Hhi.
  rewrite inject_Z_plus in Hhi. change (inject_Z 1) with 1 in Hhi.
  unfold round_half_even.
  case_Qlt (x - inject_Z (Qfloor x)) (1 # 2); [lra|].
  case_Qlt (1 # 2) (x - inject_Z (Qfloor x)).
  - rewrite inject_Z_plus. change (inject_Z 1) with 1. lra.
  - destruct (Z.even (Qfloor x)).
    + lra.
    + rewrite inject_Z_plus. change (inject_Z 1) with 1. lra.
Qed.

Lemma round_half_even_mono (x y : Q) :
  x <= y -> (round_half_even x <= round_half_even y)%Z.
Proof.
  intro Hxy.
  pose proof (Qfloor_resp_le x y Hxy) as Hfl.
  destruct (Z.eq_dec (Qfloor x) (Qfloor y)) as [Heq | Hne].
  - unfold round_half_even. rewrite Heq.
    case_Qlt (x - inject_Z (Qfloor y)) (1 # 2);
      case_Qlt (y - inject_Z (Qfloor y)) (1 # 2);
      try case_Qlt (1 # 2) (y - inject_Z (Qfloor y));
      try case_Qlt (1 # 2) (x - inject_Z (Qfloor y));
      try destruct (Z.even (Qfloor y)); try lia; lra.
  - pose proof (round_half_even_floor x). pose proof (round_half_even_floor y). lia.
Qed.

Lemma py_round2_scaled (x : Q) :
  py_round2 x * 100 == inject_Z (round_half_even (x * 100)).
Proof. unfold py_round2, Qeq, Qmult, inject_Z. simpl. lia. Qed.

Lemma py_round2_mono (x y : Q) : x <= y -> py_round2 x <= py_round2 y.
Proof.
  intro Hxy.
  assert (H : (round_half_even (x * 100) <= round_half_even (y * 100))%Z)
    by (apply round_half_even_mono; lra).
  unfold py_round2, Qle. simpl. lia.
Qed.

(** X1: [round(x, 2)] moves a number by at most 0.005, never changes the
    order of two numbers, and leaves a rounded number as it is. *)
Theorem X1_round2_error_order_idempotence :
  forall x y,
    Qabs (py_round2 x - x) <= 0.005
    /\ (x <= y -> py_round2 x <= py_round2 y)
    /\ py_round2 (py_round2 x) == py_round2 x.
Proof.
  intros x y. split; [|split].
  - apply Qabs_Qle_condition.
    pose proof (py_round2_scaled x) as Hs.
    pose proof (round_half_even_error (x * 100)) as He.
    split; lra.
  - apply py_round2_mono.
  - unfold py_round2 at 1.
    rewrite (round_half_even_Z _ (round_half_even (x * 100)));
      [reflexivity | apply py_round2_scaled].
Qed.

Lemma X1_round2_error_order_idempotence_witness :
  py_round2 9.375 <= py_round2 9.385.
Proof.
  apply (X1_round2_error_order_idempotence 9.375 9.385). vm_compute. discriminate.
Defined.

(** ** Shape of the numeric scores *)

Lemma Qdiv_le_mono (a a' b : Q) : 0 < b -> a <= a' -> a / b <= a' / b.
Proof.
  intros Hb Ha. unfold Qdiv. apply Qmult_le_compat_r; [assumption|].
  apply Qlt_le_weak, Qinv_lt_0_compat. assumption.
Qed.

Lemma py_max_mono (a b b' : Q) : b <= b' -> py_max a b <= py_max a b'.
Proof. intro H. unfold py_max. case_Qlt a b; case_Qlt a b'; lra. Qed.

Lemma py_min_mono (a b b' : Q) : b <= b' -> py_min a b <= py_min a b'.
Proof. intro H. unfold py_min. case_Qlt b a; case_Qlt b' a; lra. Qed.

(** The three ways [_score_cost] and [_score_latency] end. *)
Lemma score_cost_cases (x limit : Q) :
  (x <= limit /\ _score_cost x limit = Ok 10)
  \/ (limit < x /\ ~ limit == 0
      /\ _score_cost x limit = Ok (py_max 0 (10 - (x - limit) / limit * 5)))
  \/ (limit < x /\ limit == 0 /\ _score_cost x limit = Raise ZeroDivisionError).
Proof.
  unfold _score_cost, py_div. case_Qle x limit; [auto|].
  destruct (Qeq_bool limit 0) eqn:Ez.
  - apply Qeq_bool_iff in Ez. right. right. auto.
  - apply Qeq_bool_neq in Ez. right. left. auto.
Qed.

Lemma score_latency_as_cost (x limit : Q) : _score_latency x limit = _score_cost x limit.
Proof. reflexivity. Qed.

(** The three ways [_score_scalability] ends. *)
Lemma score_scalability_cases (x required : Q) :
  (required == 0 /\ _score_scalability x required = Raise ZeroDivisionError)
  \/ (~ required == 0 /\ required <= x
      /\ _score_scalability x required
         = Ok (py_min 10 (8 + py_min 2 ((x - required) / required))))
  \/ (~ required == 0 /\ x < required
      /\ _score_scalability x required
         = Ok (py_max 0 (8 - (required - x) / required * 8))).
Proof.
  unfold _score_scalability, py_div.
  destruct (Qeq_bool required 0) eqn:Ez.
  - apply Qeq_bool_iff in Ez. left. split; [assumption|].
    destruct (Qle_bool required x); reflexivity.
  - apply Qeq_bool_neq in Ez. right.
    case_Qle required x; [left | right]; auto.
Qed.

(** X2: scoring an option can only fail with [ZeroDivisionError], and it
    fails exactly when the required scale is zero, or the budget is zero and
    the option costs more than that, or the latency ceiling is zero and the
    option's latency is above it. *)
Theorem X2_scoring_fails_only_on_zero_constraint :
  forall opt constraints,
    (forall e, _score_single_option opt constraints = Raise e ->
               e = ZeroDivisionError)
    /\ ((exists e, _score_single_option opt constraints = Raise e) <->
        (Constraints.budget constraints == 0
         /\ Constraints.budget constraints < TechOption.cost opt)
        \/ (Constraints.max_latency constraints == 0
            /\ Constraints.max_latency constraints < TechOption.latency opt)
        \/ Constraints.required_scale constraints == 0).
Proof.
  intros opt constraints. unfold _score_single_option.
  change (_score_latency (TechOption.latency opt) (Constraints.max_latency constraints))
    with (_score_cost (TechOption.latency opt) (Constraints.max_latency constraints)).
  destruct (score_cost_cases (TechOption.cost opt) (Constraints.budget constraints))
    as [(Hc & ->) | [(Hc & Hcz & ->) | (Hc & Hcz & ->)]];
  destruct (score_cost_cases (TechOption.latency opt)
                             (Constraints.max_latency constraints))
    as [(Hl & ->) | [(Hl & Hlz & ->) | (Hl & Hlz & ->)]];
  destruct (score_scalability_cases (TechOption.scalability opt)
                                    (Constraints.required_scale constraints))
    as [(Hsz & ->) | [(Hsz & Hs & ->) | (Hsz & Hs & ->)]];
  simpl;
  (split;
   [intros e He; try discriminate; injection He as <-; reflexivity
   | split;
     [intros (e & He); try discriminate; tauto
     | intros [[? ?] | [[? ?] | ?]];
       try (eexists; reflexivity); try contradiction; exfalso; lra]]).
Qed.



Lemma score_cost_antitone (x x' limit q q' : Q) :
  0 < limit -> x <= x' ->
  _score_cost x limit = Ok q -> _score_cost x' limit = Ok q' -> q' <= q.
Proof.
  intros Hl Hxx Hq Hq'.
  destruct (score_cost_range x limit Hl) as (r & Hr & Hrange).
  destruct (score_cost_range x' limit Hl) as (r' & Hr' & Hrange').
  assert (r = q) by congruence. assert (r' = q') by congruence. subst r r'.
  destruct (score_cost_cases x limit) as [(Hx & E) | [(Hx & _ & E) | (_ & Hz & _)]];
    [| |lra]; rewrite E in Hq; injection Hq as <-; [lra|].
  destruct (score_cost_cases x' limit) as [(Hx' & E') | [(Hx' & _ & E') | (_ & Hz & _)]];
    [lra| |lra]; rewrite E' in Hq'; injection Hq' as <-.
  apply py_max_mono.
  assert ((x - limit) / limit <= (x' - limit) / limit)
    by (apply Qdiv_le_mono; lra).
  lra.
Qed.



Lemma score_scalability_shape (x required : Q) :
  0 < required ->
  exists q,
    _score_scalability x required = Ok q
    /\ (8 <= q <-> required <= x)
    /\ (q == 10 <-> 3 * required <= x)
    /\ (x == required -> q == 8).
Proof.
  intro Hr.
  destruct (score_scalability_cases x required)
    as [(Hz & _) | [(_ & Hx & ->) | (_ & Hx & ->)]]; [lra| |].
  - eexists. split; [reflexivity|].
    assert (Hq : 0 <= (x - required) / required) by (apply Qdiv_nonneg; lra).
    destruct (Qlt_le_dec x (3 * required)) as [Hlt | Hge].
    + assert (Hp : (x - required) / required < 2) by (apply Qlt_shift_div_r; lra).
      unfold py_min.
      case_Qlt ((x - required) / required) 2; [|lra].
      case_Qlt (8 + (x - required) / required) 10; [|lra].
      split; [split; intro; lra|]. split; [split; intro; lra|].
      intro Heq.
      assert (Hle : (x - required) / required <= 0)
        by (apply Qle_shift_div_r; lra).
      lra.
    + assert (Hp : 2 <= (x - required) / required) by (apply Qle_shift_div_l; lra).
      unfold py_min.
      case_Qlt ((x - required) / required) 2; [lra|].
      case_Qlt (8 + 2) 10; [lra|].
      split; [split; intro; lra|]. split; [split; intro; lra|].
      intro Heq. lra.
  - eexists. split; [reflexivity|].
    assert (Hq : 0 < (required - x) / required) by (apply Qdiv_pos; lra).
    unfold py_max.
    case_Qlt 0 (8 - (required - x) / required * 8);
      (split; [split; intro; lra|]); (split; [split; intro; lra|]); intro; lra.
Qed.

Lemma score_scalability_monotone (x x' required q q' : Q) :
  0 < required -> x <= x' ->
  _score_scalability x required = Ok q ->
  _score_scalability x' required = Ok q' -> q <= q'.
Proof.
  intros Hr Hxx Hq Hq'.
  destruct (score_scalability_shape x required Hr) as (r & Er & H8 & _).
  destruct (score_scalability_shape x' required Hr) as (r' & Er' & H8' & _).
  assert (r = q) by congruence. assert (r' = q') by congruence. subst r r'.
  destruct (score_scalability_cases x required)
    as [(Hz & _) | [(_ & Hx & E) | (_ & Hx & E)]]; [lra| |];
  destruct (score_scalability_cases x' required)
    as [(Hz' & _) | [(_ & Hx' & E') | (_ & Hx' & E')]]; try lra.
  - rewrite E in Hq. rewrite E' in Hq'. injection Hq as <-. injection Hq' as <-.
    apply py_min_mono.
    assert ((x - required) / required <= (x' - required) / required)
      by (apply Qdiv_le_mono; lra).
    assert (py_min 2 ((x - required) / required)
            <= py_min 2 ((x' - required) / required))
      by (apply py_min_mono; assumption).
    lra.
  - rewrite E in Hq. rewrite E' in Hq'. injection Hq as <-. injection Hq' as <-.
    apply py_max_mono.
    assert ((required - x') / required <= (required - x) / required)
      by (apply Qdiv_le_mono; lra).
    lra.
Qed.



Lemma py_round2_comp (x y : Q) : x == y -> py_round2 x == py_round2 y.
Proof.
  intro H. apply Qle_antisym; apply py_round2_mono; lra.
Qed.

(** X5: an option that meets every constraint exactly (cost equal to the
    budget, latency equal to the ceiling, scalability equal to the required
    scale, the required compliance and skill levels) gets 10 for cost,
    latency, compliance and skill but 8 for scalability, so its weighted
    score is 9.4 when no cloud is preferred and 9.6 when its own cloud is the
    preferred one: never 10. *)
Theorem X5_exact_match_scores :
  forall opt constraints,
    TechOption.cost opt == Constraints.budget constraints ->
    TechOption.latency opt == Constraints.max_latency constraints ->
    TechOption.scalability opt == Constraints.required_scale constraints ->
    ~ Constraints.required_scale constraints == 0 ->
    TechOption.compliance opt = Constraints.compliance constraints ->
    TechOption.team_skill_required opt = Constraints.team_skill constraints ->
    exists s,
      _score_single_option opt constraints = Ok s
      /\ OptionScore.cost_score s == 10
      /\ OptionScore.latency_score s == 10
      /\ OptionScore.scalability_score s == 8
      /\ OptionScore.compliance_score s == 10
      /\ OptionScore.skill_score s == 10
      /\ (Constraints.preferred_cloud constraints = None ->
          OptionScore.cloud_score s == 8 /\ OptionScore.weighted_score s == 9.4)
      /\ (Constraints.preferred_cloud constraints = Some (TechOption.cloud opt) ->
          OptionScore.cloud_score s == 10 /\ OptionScore.weighted_score s == 9.6).
Proof.
  intros opt constraints Hc Hl Hs Hnz Hcomp Hskill.
  unfold _score_single_option.
  change (_score_latency (TechOption.latency opt) (Constraints.max_latency constraints))
    with (_score_cost (TechOption.latency opt) (Constraints.max_latency constraints)).
  destruct (score_cost_cases (TechOption.cost opt) (Constraints.budget constraints))
    as [(_ & ->) | [(Hx & _) | (Hx & _)]]; [|lra|lra].
  destruct (score_cost_cases (TechOption.latency opt)
                             (Constraints.max_latency constraints))
    as [(_ & ->) | [(Hx & _) | (Hx & _)]]; [|lra|lra].
  destruct (score_scalability_cases (TechOption.scalability opt)
                                    (Constraints.required_scale constraints))
    as [(Hz & _) | [(_ & _ & ->) | (_ & Hx & _)]]; [contradiction| |lra].
  simpl. rewrite Hcomp, Hskill.
  set (raw := py_min 10 (8 + py_min 2 _)).
  assert (Hraw : raw == 8).
  { subst raw.
    assert (Hq : (TechOption.scalability opt - Constraints.required_scale constraints)
                 / Constraints.required_scale constraints == 0).
    { rewrite Hs. unfold Qdiv. setoid_replace
        (Constraints.required_scale constraints - Constraints.required_scale constraints)
        with 0 by ring. ring. }
    unfold py_min.
    case_Qlt ((TechOption.scalability opt - Constraints.required_scale constraints)
              / Constraints.required_scale constraints) 2; [|lra].
    case_Qlt (8 + (TechOption.scalability opt - Constraints.required_scale constraints)
                  / Constraints.required_scale constraints) 10; lra. }
  assert (Hcompliance :
            _score_compliance (Constraints.compliance constraints)
                              (Constraints.compliance constraints) = 10)
    by (destruct (Constraints.compliance constraints); reflexivity).
  assert (Hsk : _score_skill (Constraints.team_skill constraints)
                             (Constraints.team_skill constraints) = 10)
    by (destruct (Constraints.team_skill constraints); reflexivity).
  rewrite Hcompliance, Hsk.
  eexists. split; [reflexivity|]. simpl.
  split; [vm_compute; reflexivity|]. split; [vm_compute; reflexivity|].
  split; [rewrite (py_round2_comp raw 8 Hraw); vm_compute; reflexivity|].
  split; [vm_compute; reflexivity|]. split; [vm_compute; reflexivity|].
  split; intro Hcloud; rewrite Hcloud.
  - split; [vm_compute; reflexivity|].
    rewrite (py_round2_comp _ 9.4); [vm_compute; reflexivity|].
    unfold weighted_total, weights, _score_cloud. lra.
  - assert (Hme : _score_cloud (TechOption.cloud opt) (Some (TechOption.cloud opt)) = 10)
      by (destruct (TechOption.cloud opt); reflexivity).
    rewrite Hme. split; [vm_compute; reflexivity|].
    rewrite (py_round2_comp _ 9.6); [vm_compute; reflexivity|].
    unfold weighted_total, weights. lra.
Qed.

Lemma X5_exact_match_scores_witness :
  exists s,
    _score_single_option
      (TechOption.mk "Exact" "meets the profile" 8 8 5 BASIC AWS EXPERT [] [])
      sample_constraints = Ok s
    /\ OptionScore.weighted_score s == 9.4.
Proof.
  destruct (X5_exact_match_scores
              (TechOption.mk "Exact" "meets the profile" 8 8 5 BASIC AWS EXPERT [] [])
              sample_constraints)
    as (s & Hs & _ & _ & _ & _ & _ & Hnone & _);
    try reflexivity; [vm_compute; discriminate|].
  exists s. split; [exact Hs|]. apply Hnone. reflexivity.
Defined.

(** X6: the compliance score is 10 exactly when the option's compliance rank
    reaches the required rank (none 0, basic 1, soc2 2, hipaa 3, pci 3,
    gdpr 4); hipaa and pci are interchangeable on either side; a higher-ranked
    option never scores lower; and short of the requirement the score is
    7, 4, 1 or 0 for a gap of 1, 2, 3 or 4 ranks. *)
Theorem X6_compliance_score_shape :
  forall option_compliance option_compliance' required_compliance,
    let score := _score_compliance option_compliance required_compliance in
    let gap := (compliance_levels required_compliance
                - compliance_levels option_compliance)%Z in
    (score == 10 <-> (gap <= 0)%Z)
    /\ ((0 < gap)%Z -> score == inject_Z (Z.max 0 (10 - 3 * gap)))
    /\ _score_compliance HIPAA required_compliance
       = _score_compliance PCI required_compliance
    /\ _score_compliance option_compliance HIPAA
       = _score_compliance option_compliance PCI
    /\ ((compliance_levels option_compliance
         <= compliance_levels option_compliance')%Z ->
        score <= _score_compliance option_compliance' required_compliance).
Proof.
  intros a a' b score gap. subst score gap.
  split; [|split; [|split; [|split]]].
  - destruct a, b; vm_compute; split; intro H; try reflexivity; try discriminate;
      exfalso; apply H; reflexivity.
  - destruct a, b; intro H; vm_compute in H; try discriminate; vm_compute; reflexivity.
  - destruct b; reflexivity.
  - destruct a; reflexivity.
  - destruct a, a', b; intro H; vm_compute in H;
      try (exfalso; apply H; reflexivity); vm_compute; discriminate.
Qed.

(** Without a preferred cloud every option gets cloud score 8; with one,
    an option on the preferred cloud gets 10, a multi-cloud option gets 9,
    and any other option gets 6. *)
Lemma cloud_score_shape :
  forall option_cloud preferred,
    _score_cloud option_cloud None = 8
    /\ (_score_cloud option_cloud (Some preferred) = 10 <-> option_cloud = preferred)
    /\ (_score_cloud option_cloud (Some preferred) = 9 <->
        option_cloud = MULTI /\ preferred <> MULTI)
    /\ (_score_cloud option_cloud (Some preferred) = 6 <->
        option_cloud <> preferred /\ option_cloud <> MULTI).
Proof.
  intros o p. split; [reflexivity|].
  destruct o, p; simpl; repeat split; intros; try discriminate; try congruence;
    try tauto;
    match goal with
    | H : _ /\ _ |- _ => destruct H; congruence
    end.
Qed.

(** ** Aggregates and dominance *)

Lemma weighted_total_range (c l sc co cl sk : Q) :
  0 <= c <= 10 -> 0 <= l <= 10 -> 0 <= sc <= 10 ->
  0 <= co <= 10 -> 0 <= cl <= 10 -> 0 <= sk <= 10 ->
  0 <= weighted_total c l sc co cl sk <= 10.
Proof. unfold weighted_total, weights. intros. lra. Qed.

Lemma weighted_total_mono (c l sc co cl sk c' l' sc' co' cl' sk' : Q) :
  c <= c' -> l <= l' -> sc <= sc' -> co <= co' -> cl <= cl' -> sk <= sk' ->
  weighted_total c l sc co cl sk <= weighted_total c' l' sc' co' cl' sk'.
Proof. unfold weighted_total, weights. intros. lra. Qed.

(** X7: with positive budget, latency ceiling and required scale, the two
    aggregate scores of an option, the unweighted mean [total_score] and the
    [weighted_score], lie in [0,10]. *)
Theorem X7_aggregate_scores_in_range :
  forall opt constraints,
    0 < Constraints.budget constraints ->
    0 < Constraints.max_latency constraints ->
    0 < Constraints.required_scale constraints ->
    exists s,
      _score_single_option opt constraints = Ok s
      /\ 0 <= OptionScore.total_score s <= 10
      /\ 0 <= OptionScore.weighted_score s <= 10.
Proof.
  intros opt constraints Hb Hl Hs.
  destruct (score_single_option_returns opt constraints Hb Hl Hs) as (s & Hscore).
  exists s. split; [assumption|].
  destruct (raw_score_range Dim_cost opt constraints Hb Hl Hs) as (c & Hc & Rc).
  destruct (raw_score_range Dim_latency opt constraints Hb Hl Hs) as (l & Hl' & Rl).
  destruct (raw_score_range Dim_scalability opt constraints Hb Hl Hs) as (sc & Hsc & Rsc).
  apply score_single_option_inv in Hscore.
  destruct Hscore as (c0 & l0 & sc0 & Hc0 & Hl0 & Hsc0 & ->).
  assert (c0 = c) by congruence. assert (l0 = l) by congruence.
  assert (sc0 = sc) by congruence. subst c0 l0 sc0. simpl.
  pose proof (score_compliance_range (TechOption.compliance opt)
                                     (Constraints.compliance constraints)) as Rco.
  pose proof (score_cloud_range (TechOption.cloud opt)
                                (Constraints.preferred_cloud constraints)) as Rcl.
  pose proof (score_skill_range (TechOption.team_skill_required opt)
                                (Constraints.team_skill constraints)) as Rsk.
  split; apply py_round2_range.
  - split.
    + apply Qle_shift_div_l; lra.
    + apply Qle_shift_div_r; lra.
  - apply weighted_total_range; assumption.
Qed.

Lemma X7_aggregate_scores_in_range_witness :
  exists s,
    _score_single_option sample_rival strict_constraints = Ok s
    /\ 0 <= OptionScore.total_score s <= 10
    /\ 0 <= OptionScore.weighted_score s <= 10.
Proof.
  apply (X7_aggregate_scores_in_range sample_rival strict_constraints); reflexivity.
Defined.

Lemma score_compliance_monotone a a' b :
  (compliance_levels a <= compliance_levels a')%Z ->
  _score_compliance a b <= _score_compliance a' b.
Proof.
  destruct a, a', b; intro H; vm_compute in H;
    try (exfalso; apply H; reflexivity); vm_compute; discriminate.
Qed.

Lemma score_skill_antitone r r' t :
  (skill_levels r <= skill_levels r')%Z ->
  _score_skill r' t <= _score_skill r t.
Proof.
  destruct r, r', t; intro H; vm_compute in H;
    try (exfalso; apply H; reflexivity); vm_compute; discriminate.
Qed.

(** X8: under positive budget, latency ceiling and required scale, if option
    [a] is no worse than option [b] on every attribute (cost and latency not
    higher, scalability not lower, compliance rank not lower, required skill
    rank not higher, same cloud), then no reported score of [a] is below that
    of [b]: not a dimension score, not the total score, not the weighted
    score. *)
Theorem X8_dominated_option_never_scores_higher :
  forall a b constraints,
    0 < Constraints.budget constraints ->
    0 < Constraints.max_latency constraints ->
    0 < Constraints.required_scale constraints ->
    TechOption.cost a <= TechOption.cost b ->
    TechOption.latency a <= TechOption.latency b ->
    TechOption.scalability b <= TechOption.scalability a ->
    (compliance_levels (TechOption.compliance b)
     <= compliance_levels (TechOption.compliance a))%Z ->
    TechOption.cloud a = TechOption.cloud b ->
    (skill_levels (TechOption.team_skill_required a)
     <= skill_levels (TechOption.team_skill_required b))%Z ->
    exists score_a score_b,
      _score_single_option a constraints = Ok score_a
      /\ _score_single_option b constraints = Ok score_b
      /\ (forall d, dimension_score d score_b <= dimension_score d score_a)
      /\ OptionScore.total_score score_b <= OptionScore.total_score score_a
      /\ OptionScore.weighted_score score_b <= OptionScore.weighted_score score_a.
Proof.
  intros a b constraints Hb Hl Hs Hcost Hlat Hscal Hcomp Hcloud Hskill.
  destruct (score_single_option_returns a constraints Hb Hl Hs) as (sa & Hsa).
  destruct (score_single_option_returns b constraints Hb Hl Hs) as (sb & Hsb).
  exists sa, sb. split; [assumption|]. split; [assumption|].
  apply score_single_option_inv in Hsa.
  destruct Hsa as (ca & la & sca & Hca & Hla & Hsca & ->).
  apply score_single_option_inv in Hsb.
  destruct Hsb as (cb & lb & scb & Hcb & Hlb & Hscb & ->).
  simpl in Hca, Hla, Hsca, Hcb, Hlb, Hscb.
  assert (Mc : cb <= ca)
    by (exact (score_cost_antitone _ _ _ _ _ Hb Hcost Hca Hcb)).
  assert (Ml : lb <= la)
    by (exact (score_cost_antitone _ _ _ _ _ Hl Hlat Hla Hlb)).
  assert (Ms : scb <= sca)
    by (exact (score_scalability_monotone _ _ _ _ _ Hs Hscal Hscb Hsca)).
  pose proof (score_compliance_monotone _ _ (Constraints.compliance constraints) Hcomp)
    as Mco.
  pose proof (score_skill_antitone _ _ (Constraints.team_skill constraints) Hskill)
    as Msk.
  rewrite Hcloud in *.
  split; [|split].
  - intro d. destruct d; simpl; apply py_round2_mono; try assumption. lra.
  - simpl. apply py_round2_mono. apply Qdiv_le_mono; lra.
  - simpl. apply py_round2_mono. apply weighted_total_mono; try assumption. lra.
Qed.

Lemma X8_dominated_option_never_scores_higher_witness :
  exists score_a score_b,
    _score_single_option sample_option strict_constraints = Ok score_a
    /\ _score_single_option sample_dominated strict_constraints = Ok score_b
    /\ OptionScore.weighted_score score_b <= OptionScore.weighted_score score_a.
Proof.
  destruct (X8_dominated_option_never_scores_higher
              sample_option sample_dominated strict_constraints)
    as (sa & sb & Hsa & Hsb & _ & _ & Hw);
    try reflexivity; try (vm_compute; discriminate).
  exists sa, sb. auto.
Defined.

(** ** What [score_options] returns and when it fails *)

Lemma score_single_option_raises_zero_division opt constraints e :
  _score_single_option opt constraints = Raise e -> e = ZeroDivisionError.
Proof.
  unfold _score_single_option, _score_cost, _score_latency, _score_scalability, py_div.
  repeat match goal with
         | |- context [if ?b then _ else _] => destruct b; simpl
         end;
    intro H; try discriminate; injection H as <-; reflexivity.
Qed.

Lemma mapM_ok {A B : Type} (f : A -> result B) (l : list A) (ys : list B) :
  mapM f l = Ok ys -> Forall2 (fun x y => f x = Ok y) l ys.
Proof.
  revert ys. induction l as [|x l IH]; simpl; intros ys H.
  - injection H as <-. constructor.
  - bind_inv H. injection H as <-. constructor; auto.
Qed.

Lemma mapM_raise {A B : Type} (f : A -> result B) (l : list A) (e : exn) :
  mapM f l = Raise e -> exists x, In x l /\ f x = Raise e.
Proof.
  induction l as [|x l IH]; simpl; [discriminate|].
  destruct (f x) as [y|e'] eqn:Hx; simpl.
  - destruct (mapM f l) as [ys|e'']; simpl; [discriminate|].
    intros [= <-]. destruct (IH eq_refl) as (x' & Hin & Hx'). eauto.
  - intros [= <-]. eauto.
Qed.

Lemma Forall2_map_eq {A B C : Type} (f : A -> C) (g : B -> C) (l : list A) (l' : list B) :
  Forall2 (fun x y => g y = f x) l l' -> map g l' = map f l.
Proof. induction 1; simpl; congruence. Qed.

(** X9: when [score_options] returns, it returns exactly one score per
    option: the names on the scores are the names of the options, reordered.
    When it fails, it fails with the [ZeroDivisionError] of an option that
    cannot be scored. *)
Theorem X9_score_options_one_score_per_option :
  forall options constraints,
    (forall out,
        score_options options constraints = Ok out ->
        List.length out = List.length options
        /\ Permutation (map TechOption.name options)
                       (map OptionScore.option_name out))
    /\ (forall e,
          score_options options constraints = Raise e ->
          e = ZeroDivisionError
          /\ exists opt, In opt options
                         /\ _score_single_option opt constraints = Raise e).
Proof.
  intros options constraints. unfold score_options. split.
  - intros out H. bind_inv H. injection H as <-.
    apply mapM_ok in Hv.
    assert (Hnames : map OptionScore.option_name v = map TechOption.name options).
    { apply Forall2_map_eq. eapply Forall2_impl; [|exact Hv].
      intros opt s Hs. apply score_single_option_inv in Hs.
      destruct Hs as (c & l & sc & _ & _ & _ & ->). reflexivity. }
    pose proof (sorted_reverse_perm OptionScore.weighted_score v) as Hperm.
    split.
    + rewrite <- (Permutation_length Hperm).
      rewrite <- (length_map OptionScore.option_name v), Hnames. apply length_map.
    + rewrite <- Hnames. apply Permutation_map. exact Hperm.
  - intros e H.
    destruct (mapM _ options) as [scores|e'] eqn:Hm; simpl in H; [discriminate|].
    injection H as <-. apply mapM_raise in Hm. destruct Hm as (opt & Hin & Hopt).
    split; [|eauto].
    exact (score_single_option_raises_zero_division opt constraints _ Hopt).
Qed.

Lemma X9_score_options_one_score_per_option_witness :
  exists out,
    score_options sample_options strict_constraints = Ok out
    /\ List.length out = 3%nat.
Proof.
  eexists. split; [reflexivity|].
  apply (X9_score_options_one_score_per_option sample_options strict_constraints).
  reflexivity.
Defined.

(** ** Trade-offs: a missing score, the number of trade-offs, symmetry *)

Lemma for_extend_raise {A B : Type} (f : A -> result (list B)) (l : list A) (e : exn) :
  for_extend f l = Raise e -> exists x, In x l /\ f x = Raise e.
Proof.
  induction l as [|x l IH]; simpl; [discriminate|].
  destruct (f x) as [ys|e'] eqn:Hx; simpl.
  - destruct (for_extend f l) as [zs|e'']; simpl; [discriminate|].
    intros [= <-]. destruct (IH eq_refl) as (x' & Hin & Hx'). eauto.
  - intros [= <-]. eauto.
Qed.

Lemma for_extend_fails {A B : Type} (f : A -> result (list B)) (l : list A) (x : A) :
  In x l -> (exists e, f x = Raise e) -> exists e, for_extend f l = Raise e.
Proof.
  intros Hin Hx.
  destruct (for_extend f l) as [out|e] eqn:H; [|eauto].
  apply for_extend_ok in H. destruct H as (blocks & Hall & _).
  destruct (Forall2_In_l _ _ _ _ Hall Hin) as (block & _ & Hok).
  destruct Hx as (e & He). congruence.
Qed.

Lemma score_lookup_raise scores name e :
  score_lookup scores name = Raise e -> e = KeyError name.
Proof.
  unfold score_lookup. destruct (find _ _); [discriminate|]. congruence.
Qed.

Lemma pair_tradeoffs_raise options scores i j e :
  (i < j < List.length options)%nat ->
  pair_tradeoffs options scores (i, j) = Raise e ->
  exists opt, In opt options
              /\ e = KeyError (TechOption.name opt)
              /\ score_lookup scores (TechOption.name opt) = Raise e.
Proof.
  intros Hij. unfold pair_tradeoffs, list_index. simpl.
  destruct (nth_error options i) as [oa|] eqn:Ha;
    [|apply nth_error_None in Ha; lia].
  destruct (nth_error options j) as [ob|] eqn:Hb;
    [|apply nth_error_None in Hb; lia].
  simpl.
  destruct (score_lookup scores (TechOption.name oa)) as [sa|ea] eqn:Hsa; simpl.
  - destruct (score_lookup scores (TechOption.name ob)) as [sb|eb] eqn:Hsb; simpl;
      [discriminate|].
    intros [= <-]. exists ob. split; [eapply nth_error_In; eassumption|].
    split; [eapply score_lookup_raise; eassumption | assumption].
  - intros [= <-]. exists oa. split; [eapply nth_error_In; eassumption|].
    split; [eapply score_lookup_raise; eassumption | assumption].
Qed.

(** X10: the generator fails only with the [KeyError] of the name of an
    option that has no score under that name; and with two options or more it
    does fail as soon as one option has no score. *)
Theorem X10_tradeoffs_fail_on_missing_score :
  forall options scores,
    (forall e,
        generate_tradeoffs options scores = Raise e ->
        exists opt, In opt options
                    /\ e = KeyError (TechOption.name opt)
                    /\ score_lookup scores (TechOption.name opt) = Raise e)
    /\ ((2 <= List.length options)%nat ->
        (exists opt e, In opt options
                       /\ score_lookup scores (TechOption.name opt) = Raise e) ->
        exists e, generate_tradeoffs options scores = Raise e).
Proof.
  intros options scores. rewrite generate_tradeoffs_pairs. split.
  - intros e H. apply for_extend_raise in H. destruct H as ([i j] & Hin & Hp).
    apply in_index_pairs in Hin. eapply pair_tradeoffs_raise; eassumption.
  - intros Hlen (opt & e & Hin & He).
    apply In_nth_error in Hin. destruct Hin as (k & Hk).
    assert (Hkn : (k < List.length options)%nat)
      by (apply nth_error_Some; congruence).
    assert (Hpair : exists i j, (i < j < List.length options)%nat /\ (k = i \/ k = j)).
    { destruct k as [|k'].
      - exists 0%nat, 1%nat. split; [lia | auto].
      - exists 0%nat, (S k'). split; [lia | auto]. }
    destruct Hpair as (i & j & Hij & Hkij).
    apply (for_extend_fails _ _ (i, j)); [apply in_index_pairs; exact Hij|].
    unfold pair_tradeoffs, list_index. simpl.
    destruct (nth_error options i) as [oa|] eqn:Ha;
      [|apply nth_error_None in Ha; lia].
    destruct (nth_error options j) as [ob|] eqn:Hb;
      [|apply nth_error_None in Hb; lia].
    simpl.
    destruct (score_lookup scores (TechOption.name oa)) as [sa|ea] eqn:Hsa; simpl;
      [|eauto].
    destruct (score_lookup scores (TechOption.name ob)) as [sb|eb] eqn:Hsb; simpl;
      [|eauto].
    exfalso. destruct Hkij as [-> | ->]; congruence.
Qed.

Lemma X10_tradeoffs_fail_on_missing_score_witness :
  generate_tradeoffs sample_options (firstn 2 strict_scores)
  = Raise (KeyError "Self-hosted").
Proof.
  destruct (X10_tradeoffs_fail_on_missing_score sample_options (firstn 2 strict_scores))
    as [_ Hfails].
  destruct Hfails as (e & He).
  - simpl. lia.
  - exists sample_rival. eexists. split; [left; reflexivity | reflexivity].
  - rewrite He. vm_compute in He. injection He as <-. reflexivity.
Defined.

Lemma length_index_pairs_from (n k a : nat) :
  (a + k = n)%nat ->
  (2 * List.length
         (flat_map (fun i => map (pair i) (seq (i + 1) (n - (i + 1)))) (seq a k))
   = k * (k - 1))%nat.
Proof.
  revert a. induction k as [|k IH]; intros a Hak; [reflexivity|].
  simpl seq. simpl flat_map. rewrite length_app, length_map, length_seq.
  specialize (IH (S a) ltac:(lia)).
  replace (n - (a + 1))%nat with k by lia. nia.
Qed.

Lemma length_index_pairs (n : nat) :
  (2 * List.length (index_pairs n) = n * (n - 1))%nat.
Proof. apply length_index_pairs_from. reflexivity. Qed.

Lemma length_compare_on d option_a option_b score_a score_b :
  (List.length (compare_on d option_a option_b score_a score_b) <= 1)%nat.
Proof.
  destruct (compare_on_cases d option_a option_b score_a score_b)
    as [(_ & ->) | (_ & ->)]; simpl; lia.
Qed.

Lemma length_compare_options option_a option_b score_a score_b :
  (List.length (_compare_options option_a option_b score_a score_b) <= 6)%nat.
Proof.
  unfold _compare_options. rewrite !length_app.
  pose proof (length_compare_on Dim_cost option_a option_b score_a score_b).
  pose proof (length_compare_on Dim_latency option_a option_b score_a score_b).
  pose proof (length_compare_on Dim_scalability option_a option_b score_a score_b).
  pose proof (length_compare_on Dim_compliance option_a option_b score_a score_b).
  pose proof (length_compare_on Dim_cloud option_a option_b score_a score_b).
  pose proof (length_compare_on Dim_skill option_a option_b score_a score_b).
  lia.
Qed.

Lemma length_concat_bound {A : Type} (blocks : list (list A)) (b : nat) :
  Forall (fun block => (List.length block <= b)%nat) blocks ->
  (List.length (List.concat blocks) <= b * List.length blocks)%nat.
Proof.
  induction 1 as [|block blocks Hb _ IH]; simpl; [lia|].
  rewrite length_app. lia.
Qed.

(** X11: over [n] options the generator visits n(n-1)/2 pairs and returns at
    most six trade-offs per pair, so at most 3n(n-1) trade-offs; for fewer
    than two options it returns none. *)
Theorem X11_number_of_tradeoffs :
  forall options scores out,
    generate_tradeoffs options scores = Ok out ->
    let n := List.length options in
    (2 * List.length (index_pairs n) = n * (n - 1))%nat
    /\ (List.length out <= 3 * (n * (n - 1)))%nat
    /\ ((n < 2)%nat -> out = []).
Proof.
  intros options scores out H n. subst n.
  pose proof (length_index_pairs (List.length options)) as Hpairs.
  split; [exact Hpairs|].
  apply generate_tradeoffs_blocks in H. destruct H as (blocks & Hall & ->).
  assert (Hlen : List.length blocks = List.length (index_pairs (List.length options)))
    by (symmetry; eapply Forall2_length; eassumption).
  assert (Hsix : Forall (fun block => (List.length block <= 6)%nat) blocks).
  { apply Forall_forall. intros block Hin.
    destruct (Forall2_In_r _ _ _ _ Hall Hin) as (p & _ & Hp).
    apply pair_tradeoffs_ok in Hp.
    destruct Hp as (oa & ob & sa & sb & _ & _ & _ & _ & ->).
    apply length_compare_options. }
  pose proof (length_concat_bound blocks 6 Hsix) as Hbound.
  split; [lia|].
  intro Hn.
  assert (List.length blocks = 0%nat) by nia.
  destruct blocks; [reflexivity | discriminate].
Qed.

Lemma X11_number_of_tradeoffs_witness :
  exists out,
    generate_tradeoffs sample_options strict_scores = Ok out
    /\ (List.length out <= 18)%nat.
Proof.
  eexists. split; [vm_compute; reflexivity|].
  apply (X11_number_of_tradeoffs sample_options strict_scores). reflexivity.
Defined.

Lemma compare_on_swap d option_a option_b score_a score_b :
  map (fun t => (TradeOff.option_b t, TradeOff.option_a t, TradeOff.dimension t,
                 TradeOff.winner t, TradeOff.explanation t, TradeOff.impact t))
      (compare_on d option_b option_a score_b score_a)
  = map (fun t => (TradeOff.option_a t, TradeOff.option_b t, TradeOff.dimension t,
                   TradeOff.winner t, TradeOff.explanation t, TradeOff.impact t))
        (compare_on d option_a option_b score_a score_b).
Proof.
  unfold compare_on, compare_block.
  rewrite (Qabs_Qminus (dimension_score d score_b) (dimension_score d score_a)).
  case_Qlt 1 (Qabs (dimension_score d score_a - dimension_score d score_b));
    [|reflexivity].
  apply Qabs_gt_cases in E.
  case_Qlt (dimension_score d score_b) (dimension_score d score_a);
    case_Qlt (dimension_score d score_a) (dimension_score d score_b);
    try (exfalso; lra);
    cbn [map TradeOff.option_a TradeOff.option_b TradeOff.dimension
             TradeOff.winner TradeOff.explanation TradeOff.impact];
    rewrite ?String.eqb_refl;
    repeat match goal with
           | |- context [String.eqb ?x ?y] => destruct (String.eqb_spec x y)
           end;
    congruence.
Qed.

(** X12: comparing a pair in the other orientation changes nothing but the
    orientation: dimension by dimension the same trade-offs are emitted,
    with the same winner, explanation and impact, and option_a and option_b
    exchanged. *)
Theorem X12_tradeoffs_symmetric :
  forall option_a option_b score_a score_b,
    map (fun t => (TradeOff.option_b t, TradeOff.option_a t, TradeOff.dimension t,
                   TradeOff.winner t, TradeOff.explanation t, TradeOff.impact t))
        (_compare_options option_b option_a score_b score_a)
    = map (fun t => (TradeOff.option_a t, TradeOff.option_b t, TradeOff.dimension t,
                     TradeOff.winner t, TradeOff.explanation t, TradeOff.impact t))
          (_compare_options option_a option_b score_a score_b).
Proof.
  intros. unfold _compare_options. rewrite !map_app, !compare_on_swap. reflexivity.
Qed.

(** ** Request validation *)







(** ** The narrative returns on scores that are not empty *)

Lemma list_last_cons {A : Type} (x : A) (l : list A) :
  exists y, list_last (x :: l) = Ok y.
Proof.
  unfold list_last. simpl. destruct (rev l ++ [x]) as [|y r] eqn:E; [|eauto].
  exfalso. eapply app_cons_not_nil. symmetry. exact E.
Qed.

Lemma max_from_in {A : Type} (key : A -> Q) (best : A) (xs : list A) :
  In (max_from key best xs) (best :: xs).
Proof.
  revert best. induction xs as [|x xs IH]; intro best; simpl; [auto|].
  destruct (IH (if Qlt_bool (key best) (key x) then x else best)) as [H | H].
  - destruct (Qlt_bool (key best) (key x)); auto.
  - auto.
Qed.

Lemma index_of_in (v : Q) (xs : list Q) :
  In v xs -> exists i, index_of v xs = Ok i /\ (i < List.length xs)%nat.
Proof.
  induction xs as [|x xs IH]; simpl; [tauto|].
  intro Hin. destruct (Qeq_bool x v) eqn:E.
  - exists 0%nat. split; [reflexivity | lia].
  - destruct Hin as [-> | Hin]; [rewrite Qeq_bool_refl in E; discriminate|].
    destruct (IH Hin) as (i & -> & Hi). exists (S i). split; [reflexivity | lia].
Qed.

Lemma perf_leader_of_returns (s0 : OptionScore.t) (rest : list OptionScore.t) :
  exists leader, perf_leader_of (s0 :: rest) = Ok leader /\ In leader (s0 :: rest).
Proof.
  unfold perf_leader_of. cbn [map max_by bind].
  pose proof (max_from_in (fun x => x) (perf_key s0) (map perf_key rest)) as Hin.
  destruct (index_of_in _ (perf_key s0 :: map perf_key rest) Hin) as (i & Hi & Hlen).
  rewrite Hi. cbn [bind]. unfold list_index.
  destruct (nth_error (s0 :: rest) i) as [leader|] eqn:E.
  - exists leader. split; [reflexivity|]. eapply nth_error_In. exact E.
  - apply nth_error_None in E. simpl in E, Hlen. rewrite length_map in Hlen. lia.
Qed.

Lemma generate_insights_returns options s0 rest tradeoffs :
  exists insights, _generate_insights options (s0 :: rest) tradeoffs = Ok insights.
Proof.
  unfold _generate_insights.
  destruct (list_last_cons s0 rest) as (bottom & ->).
  unfold list_index. cbn [nth_error bind map max_by min_by]. eauto.
Qed.

Lemma generate_recommendations_returns options s0 rest tradeoffs context :
  exists recs,
    _generate_recommendations options (s0 :: rest) tradeoffs context = Ok recs.
Proof.
  unfold _generate_recommendations.
  destruct (perf_leader_of_returns s0 rest) as (leader & -> & _).
  unfold list_index. cbn [max_by bind nth_error].
  destruct (String.eqb (Context.primary_concern context) "cost").
  - destruct (1 <? List.length (s0 :: rest))%nat eqn:Hlen.
    + destruct rest as [|s1 rest]; [discriminate|].
      destruct (negb _); cbn [bind nth_error]; eauto.
    + cbn [bind]. eauto.
  - destruct (String.eqb (Context.primary_concern context) "performance").
    + destruct (1 <? List.length (s0 :: rest))%nat; [destruct (negb _)|];
        cbn [bind]; eauto.
    + destruct (String.eqb (Context.primary_concern context) "compliance");
        cbn [bind]; eauto.
Qed.

Lemma map_scenarios_returns options s0 rest tradeoffs :
  exists scenarios,
    _map_scenarios options (s0 :: rest) tradeoffs = Ok scenarios
    /\ map fst scenarios
       = ["tight_budget"; "high_performance"; "quick_deployment";
          "enterprise_deployment"; "startup_mvp"].
Proof.
  unfold _map_scenarios.
  destruct (perf_leader_of_returns s0 rest) as (leader & -> & _).
  cbn [max_by bind]. eexists. split; reflexivity.
Qed.

Lemma analyze_returns options constraints s0 rest tradeoffs use_case :
  exists analysis,
    analyze options constraints (s0 :: rest) tradeoffs use_case = Ok analysis.
Proof.
  unfold analyze.
  destruct (generate_insights_returns options s0 rest tradeoffs) as (insights & ->).
  destruct (generate_recommendations_returns options s0 rest tradeoffs
              (_analyze_context constraints use_case)) as (recs & ->).
  destruct (map_scenarios_returns options s0 rest tradeoffs) as (sc & -> & _).
  unfold _generate_summary, list_index. cbn [bind nth_error]. eauto.
Qed.

Lemma analyze_empty options constraints tradeoffs use_case :
  analyze options constraints [] tradeoffs use_case = Raise IndexError.
Proof. reflexivity. Qed.

(** ** The whole comparison *)

Lemma score_options_ok options constraints scores :
  score_options options constraints = Ok scores ->
  Forall (fun opt => exists s, _score_single_option opt constraints = Ok s) options
  /\ List.length scores = List.length options.
Proof.
  intro H. split.
  - unfold score_options in H. bind_inv H. apply mapM_ok in Hv.
    clear H. induction Hv; constructor; eauto.
  - unfold score_options in H. bind_inv H. injection H as <-.
    apply mapM_ok in Hv.
    rewrite <- (Permutation_length (sorted_reverse_perm OptionScore.weighted_score v)).
    symmetry. eapply Forall2_length. exact Hv.
Qed.

(** X14: a comparison returns exactly when there is at least one option and
    every option can be scored; the result then carries one score per
    option and no identifier yet.  Otherwise it raises [IndexError] (no
    option) or [ZeroDivisionError] (an option that cannot be scored): the
    look-up of a score by name never fails inside a comparison. *)
Theorem X14_compare_returns :
  forall request,
    let options := ComparisonRequest.options request in
    let constraints := ComparisonRequest.constraints request in
    let scorable :=
      Forall (fun opt => exists s, _score_single_option opt constraints = Ok s)
             options in
    ((exists result_, DecisionEngine.compare request = Ok result_) <->
     options <> [] /\ scorable)
    /\ (forall result_,
          DecisionEngine.compare request = Ok result_ ->
          List.length (ComparisonResult.scores result_) = List.length options
          /\ ComparisonResult.comparison_id result_ = None)
    /\ (forall e,
          DecisionEngine.compare request = Raise e ->
          (e = IndexError /\ options = [])
          \/ (e = ZeroDivisionError /\ ~ scorable)).
Proof.
  intros request options constraints scorable.
  subst options constraints scorable. unfold DecisionEngine.compare.
  destruct (score_options (ComparisonRequest.options request)
                          (ComparisonRequest.constraints request))
    as [scores|e0] eqn:Hscores; cbn [bind].
  - destruct (score_options_ok _ _ _ Hscores) as [Hall Hlen].
    destruct (generate_tradeoffs_total (ComparisonRequest.options request) scores
                (score_lookup_after_scoring _ _ _ Hscores)) as (tradeoffs & ->).
    cbn [bind].
    destruct scores as [|s0 rest].
    + assert (Hnil : ComparisonRequest.options request = [])
        by (destruct (ComparisonRequest.options request); [reflexivity | discriminate]).
      rewrite analyze_empty. cbn [bind].
      split; [split; [intros (r & Hr); discriminate | intros [Hne _]; contradiction]|].
      split; [discriminate|]. intros e [= <-]. left. auto.
    + destruct (analyze_returns (ComparisonRequest.options request)
                  (ComparisonRequest.constraints request) s0 rest tradeoffs
                  (ComparisonRequest.use_case request)) as (analysis & ->).
      cbn [bind].
      split; [split; [intros _; split; [|exact Hall] | eauto]|].
      * intro Hnil. rewrite Hnil in Hlen. discriminate.
      * split; [|discriminate]. intros r [= <-]. simpl. auto.
  - split; [split; [intros (r & Hr); discriminate|]|].
    + intros [_ Hall].
      destruct (mapM_total _ _ Hall) as (ys & Hys & _).
      unfold score_options in Hscores. rewrite Hys in Hscores. discriminate.
    + split; [discriminate|]. intros e [= <-]. right.
      unfold score_options in Hscores.
      destruct (mapM _ _) as [ys|e1] eqn:Hm; [discriminate|].
      injection Hscores as <-. apply mapM_raise in Hm.
      destruct Hm as (opt & Hin & Hopt).
      split; [eapply score_single_option_raises_zero_division; exact Hopt|].
      intro Hall. rewrite Forall_forall in Hall.
      destruct (Hall opt Hin) as (s & Hs). congruence.
Qed.

Lemma X14_compare_returns_witness :
  exists result_,
    DecisionEngine.compare balanced_request = Ok result_
    /\ List.length (ComparisonResult.scores result_) = 2%nat.
Proof.
  destruct (X14_compare_returns balanced_request) as (Hiff & Hlen & _).
  destruct (proj2 Hiff) as (r & Hr).
  - split; [discriminate|]. repeat constructor; eexists; reflexivity.
  - exists r. split; [exact Hr|]. apply (Hlen r Hr).
Defined.

(** ** Risks, scenarios and recommendations *)

Lemma score_risks_nil (s : OptionScore.t) :
  score_risks s = [] <->
  4 <= OptionScore.cost_score s
  /\ 4 <= OptionScore.latency_score s
  /\ 4 <= OptionScore.scalability_score s
  /\ 6 <= OptionScore.compliance_score s
  /\ 5 <= OptionScore.skill_score s.
Proof.
  unfold score_risks.
  case_Qlt (OptionScore.cost_score s) 4;
    case_Qlt (OptionScore.latency_score s) 4;
    case_Qlt (OptionScore.scalability_score s) 4;
    case_Qlt (OptionScore.compliance_score s) 6;
    case_Qlt (OptionScore.skill_score s) 5;
    simpl; split; intro H; try discriminate; try tauto;
    exfalso; lra.
Qed.

Lemma flat_map_nil {A B : Type} (f : A -> list B) (l : list A) :
  flat_map f l = [] <-> Forall (fun x => f x = []) l.
Proof.
  induction l as [|x l IH]; simpl.
  - split; [constructor | reflexivity].
  - split.
    + intro H. apply app_eq_nil in H. destruct H as [Hx Hl].
      constructor; [assumption | apply IH; assumption].
    + inversion 1 as [|? ? Hx Hl]; subst. rewrite Hx. apply IH. assumption.
Qed.

Lemma high_impact_nil (tradeoffs : list TradeOff.t) :
  high_impact tradeoffs = [] <->
  Forall (fun t => TradeOff.impact t <> "high") tradeoffs.
Proof.
  unfold high_impact. induction tradeoffs as [|t l IH]; simpl.
  - split; [constructor | reflexivity].
  - destruct (String.eqb_spec (TradeOff.impact t) "high") as [Heq | Hne].
    + split; [discriminate | inversion 1; contradiction].
    + rewrite IH. split; [constructor; assumption | inversion 1; assumption].
Qed.

(** X15: the list of risks is empty exactly when every option scores at
    least 4 on cost, latency and scalability, at least 6 on compliance and at
    least 5 on skill, and no trade-off has impact high; the cloud score and
    the aggregate scores never raise a risk. *)
Theorem X15_no_risk_condition :
  forall options scores tradeoffs,
    _identify_risks options scores tradeoffs = [] <->
    Forall (fun s =>
              4 <= OptionScore.cost_score s
              /\ 4 <= OptionScore.latency_score s
              /\ 4 <= OptionScore.scalability_score s
              /\ 6 <= OptionScore.compliance_score s
              /\ 5 <= OptionScore.skill_score s) scores
    /\ Forall (fun t => TradeOff.impact t <> "high") tradeoffs.
Proof.
  intros options scores tradeoffs. unfold _identify_risks. split.
  - intro H. apply app_eq_nil in H. destruct H as [Hs Ht]. split.
    + apply flat_map_nil in Hs. eapply Forall_impl; [|exact Hs].
      intros s. apply score_risks_nil.
    + apply high_impact_nil. destruct (high_impact tradeoffs); [reflexivity | discriminate].
  - intros [Hs Ht].
    assert (Hflat : flat_map score_risks scores = []).
    { apply flat_map_nil. eapply Forall_impl; [|exact Hs].
      intros s. apply score_risks_nil. }
    apply high_impact_nil in Ht. rewrite Hflat, Ht. reflexivity.
Qed.

(** X16: for a scored option the compliance risk threshold (score below 6)
    is crossed exactly when the option's compliance rank is two or more below
    the required rank, and the skill risk threshold (score below 5) exactly
    when the team's skill rank is two or more below the rank the option
    requires; the risk string of the option is then in the list of risks. *)
Theorem X16_rank_gaps_that_raise_risks :
  forall opt constraints s,
    _score_single_option opt constraints = Ok s ->
    let compliance_gap :=
      (compliance_levels (Constraints.compliance constraints)
       - compliance_levels (TechOption.compliance opt))%Z in
    let skill_gap :=
      (skill_levels (TechOption.team_skill_required opt)
       - skill_levels (Constraints.team_skill constraints))%Z in
    (OptionScore.compliance_score s < 6 <-> (2 <= compliance_gap)%Z)
    /\ (OptionScore.skill_score s < 5 <-> (2 <= skill_gap)%Z)
    /\ ((2 <= compliance_gap)%Z ->
        In (TechOption.name opt
              ^^ ": Compliance risk - may not meet regulatory requirements")
           (score_risks s))
    /\ ((2 <= skill_gap)%Z ->
        In (TechOption.name opt
              ^^ ": Team capability risk - may require additional training")
           (score_risks s)).
Proof.
  intros opt constraints s H compliance_gap skill_gap.
  subst compliance_gap skill_gap.
  apply score_single_option_inv in H.
  destruct H as (c & l & sc & _ & _ & _ & ->).
  assert (Hcomp :
    py_round2 (_score_compliance (TechOption.compliance opt)
                                 (Constraints.compliance constraints)) < 6
    <-> (2 <= compliance_levels (Constraints.compliance constraints)
              - compliance_levels (TechOption.compliance opt))%Z).
  { destruct (TechOption.compliance opt), (Constraints.compliance constraints);
      vm_compute; split; intro H; try reflexivity; try discriminate;
      exfalso; apply H; reflexivity. }
  assert (Hskill :
    py_round2 (_score_skill (TechOption.team_skill_required opt)
                            (Constraints.team_skill constraints)) < 5
    <-> (2 <= skill_levels (TechOption.team_skill_required opt)
              - skill_levels (Constraints.team_skill constraints))%Z).
  { destruct (TechOption.team_skill_required opt), (Constraints.team_skill constraints);
      vm_compute; split; intro H; try reflexivity; try discriminate;
      exfalso; apply H; reflexivity. }
  cbn [OptionScore.compliance_score OptionScore.skill_score].
  split; [exact Hcomp|]. split; [exact Hskill|].
  unfold score_risks.
  cbn [OptionScore.compliance_score OptionScore.skill_score OptionScore.option_name
       OptionScore.cost_score OptionScore.latency_score OptionScore.scalability_score].
  split; intro Hgap.
  - apply Hcomp, Qlt_bool_iff in Hgap. rewrite Hgap.
    rewrite !in_app_iff. right. right. right. left. left. reflexivity.
  - apply Hskill, Qlt_bool_iff in Hgap. rewrite Hgap.
    rewrite !in_app_iff. right. right. right. right. left. reflexivity.
Qed.

Lemma X16_rank_gaps_that_raise_risks_witness :
  exists s,
    _score_single_option sample_rival
                         (Constraints.mk 8 8 5 HIPAA None INTERMEDIATE) = Ok s
    /\ OptionScore.compliance_score s < 6
    /\ OptionScore.skill_score s < 5.
Proof.
  eexists. split; [reflexivity|].
  destruct (X16_rank_gaps_that_raise_risks
              sample_rival (Constraints.mk 8 8 5 HIPAA None INTERMEDIATE) _ eq_refl)
    as (Hc & Hs & _).
  split; [apply Hc | apply Hs]; vm_compute; discriminate.
Defined.

Lemma max_from_best {A : Type} (key : A -> Q) (best : A) (xs : list A) :
  Forall (fun x => key x <= key best) xs -> max_from key best xs = best.
Proof.
  induction 1 as [|x xs Hx _ IH]; simpl; [reflexivity|].
  case_Qlt (key best) (key x); [lra | exact IH].
Qed.

(** X17: for the scores that [score_options] returns, when there is at least
    one, the scenario map has the five keys tight_budget, high_performance,
    quick_deployment, enterprise_deployment and startup_mvp, in this order,
    and the option named under startup_mvp is the first of the ranking. *)
Theorem X17_scenarios_of_a_ranking :
  forall options constraints top rest tradeoffs,
    score_options options constraints = Ok (top :: rest) ->
    exists scenarios best,
      _map_scenarios options (top :: rest) tradeoffs = Ok scenarios
      /\ map fst scenarios
         = ["tight_budget"; "high_performance"; "quick_deployment";
            "enterprise_deployment"; "startup_mvp"]
      /\ nth_error scenarios 4
         = Some ("startup_mvp",
                 OptionScore.option_name top
                   ^^ " - best overall balance for rapid iteration")
      /\ max_by OptionScore.weighted_score (top :: rest) = Ok best
      /\ best = top.
Proof.
  intros options constraints top rest tradeoffs H.
  assert (Hbest : max_from OptionScore.weighted_score top rest = top).
  { unfold score_options in H. bind_inv H. injection H as H.
    pose proof (sorted_reverse_sorted OptionScore.weighted_score v) as Hsorted.
    rewrite H in Hsorted. inversion Hsorted as [|? ? _ Hall]; subst.
    apply max_from_best. exact Hall. }
  unfold _map_scenarios.
  destruct (perf_leader_of_returns top rest) as (leader & -> & _).
  cbn [max_by bind]. rewrite Hbest.
  eexists. exists top. repeat split.
Qed.

Lemma X17_scenarios_of_a_ranking_witness :
  exists scenarios,
    _map_scenarios sample_options strict_scores [] = Ok scenarios
    /\ nth_error scenarios 4
       = Some ("startup_mvp", "Managed SQL - best overall balance for rapid iteration").
Proof.
  edestruct (X17_scenarios_of_a_ranking sample_options strict_constraints)
    with (tradeoffs := @nil TradeOff.t)
    as (sc & best & Hsc & _ & Hfifth & _); [reflexivity|].
  exists sc. split; [exact Hsc | exact Hfifth].
Defined.

Lemma prefix_append (a b : string) : String.prefix a (a ^^ b) = true.
Proof.
  induction a as [|c a IH]; simpl.
  - destruct b; reflexivity.
  - destruct (ascii_dec c c); [exact IH | contradiction].
Qed.

(** X18: when the narrative returns recommendations there are between one and
    four of them and the last is always the closing "Choice depends on
    priorities" sentence; under the cost concern with two options or more
    there are at least three, under the compliance concern at least two. *)
Theorem X18_recommendations_count :
  forall options scores tradeoffs context recs,
    _generate_recommendations options scores tradeoffs context = Ok recs ->
    (1 <= List.length recs <= 4)%nat
    /\ (exists front closing,
          recs = front ++ [closing]
          /\ String.prefix "Choice depends on priorities: " closing = true)
    /\ (Context.primary_concern context = "cost" ->
        (2 <= List.length scores)%nat -> (3 <= List.length recs)%nat)
    /\ (Context.primary_concern context = "compliance" ->
        (2 <= List.length recs)%nat).
Proof.
  intros options scores tradeoffs context recs H.
  unfold _generate_recommendations in H.
  bind_inv H. injection H as <-.
  set (by_risk := if String.eqb (Context.risk_tolerance context) "low" then _ else _).
  assert (Hrisk : (List.length by_risk <= 1)%nat).
  { subst by_risk.
    destruct (String.eqb (Context.risk_tolerance context) "low"); [|simpl; lia].
    destruct (filter _ scores); simpl; lia. }
  assert (Hconcern :
    (List.length v <= 2)%nat
    /\ (Context.primary_concern context = "cost" ->
        (2 <= List.length scores)%nat -> List.length v = 2%nat)
    /\ (Context.primary_concern context = "compliance" -> List.length v = 1%nat)).
  { destruct (String.eqb_spec (Context.primary_concern context) "cost") as [Hc | Hc].
    - bind_inv Hv.
      destruct (Nat.ltb_spec 1 (List.length scores)) as [Hlen | Hlen].
      + bind_inv Hv. injection Hv as <-. simpl.
        split; [lia|]. split; [reflexivity | congruence].
      + injection Hv as <-. simpl. split; [lia|]. split; [lia | congruence].
    - destruct (String.eqb_spec (Context.primary_concern context) "performance")
        as [Hp | Hp].
      + bind_inv Hv.
        assert (Hle : (List.length v <= 2)%nat).
        { destruct (1 <? List.length scores)%nat.
          - bind_inv Hv. destruct (negb _); injection Hv as <-; simpl; lia.
          - injection Hv as <-. simpl. lia. }
        split; [exact Hle|]. split; [contradiction | congruence].
      + destruct (String.eqb_spec (Context.primary_concern context) "compliance")
          as [Hco | Hco].
        * bind_inv Hv. injection Hv as <-. simpl.
          split; [lia|]. split; [contradiction | reflexivity].
        * injection Hv as <-. simpl. split; [lia|]. split; contradiction. }
  destruct Hconcern as (Hle & Hcost & Hcompliance).
  rewrite !length_app. cbn [List.length].
  split; [lia|]. split.
  - exists (v ++ by_risk). eexists. split; [apply app_assoc|].
    exact (prefix_append "Choice depends on priorities: " _).
  - split.
    + intros Hc Hlen. specialize (Hcost Hc Hlen). lia.
    + intro Hc. specialize (Hcompliance Hc). lia.
Qed.

Lemma X18_recommendations_count_witness :
  exists recs,
    _generate_recommendations sample_options strict_scores []
      (_analyze_context (Constraints.mk 3 7 5 SOC2 (Some AWS) ADVANCED)
                        "enterprise billing") = Ok recs
    /\ (3 <= List.length recs)%nat.
Proof.
  eexists. split; [vm_compute; reflexivity|].
  eapply (X18_recommendations_count sample_options strict_scores []
            (_analyze_context (Constraints.mk 3 7 5 SOC2 (Some AWS) ADVANCED)
                              "enterprise billing"));
    [vm_compute; reflexivity | reflexivity | simpl; lia].
Defined.

(** ** The store *)

Lemma find_app_fresh {A : Type} (f : A -> bool) (l : list A) (x : A) :
  find f (l ++ [x])
  = match find f l with
    | Some y => Some y
    | None => if f x then Some x else None
    end.
Proof.
  induction l as [|y l IH]; simpl; [reflexivity|].
  destruct (f y); [reflexivity | exact IH].
Qed.

Lemma existsb_false_find {A : Type} (f : A -> bool) (l : list A) :
  existsb f l = false -> find f l = None.
Proof.
  induction l as [|y l IH]; simpl; [reflexivity|].
  destruct (f y); simpl; [discriminate | exact IH].
Qed.

(** The two ways [store_comparison] ends. *)
Lemma store_comparison_cases db uuid now request result_ :
  (Database.connectable db = true
   /\ existsb (fun row => String.eqb (Database.id row) uuid)
              (Database.comparisons db) = false
   /\ Database.store_comparison db uuid now request result_
      = (Database.mk
           (Database.comparisons db
            ++ [Database.mk_comparison_row uuid request result_
                  (ComparisonRequest.use_case request) now])
           (Database.comparison_options db
            ++ map (fun opt =>
                      Database.mk_option_row
                        uuid (TechOption.name opt) opt
                        (Database.stored_score (ComparisonResult.scores result_)
                                               (TechOption.name opt)))
                   (ComparisonRequest.options request))
           (Database.connectable db),
         Ok uuid))
  \/ ((Database.connectable db = false
       \/ existsb (fun row => String.eqb (Database.id row) uuid)
                  (Database.comparisons db) = true)
      /\ exists e, Database.store_comparison db uuid now request result_
                   = (db, Raise e)).
Proof.
  unfold Database.store_comparison, Database.connect.
  destruct (Database.connectable db) eqn:Hc.
  - destruct (existsb _ _) eqn:He.
    + right. split; [auto | eauto].
    + left. auto.
  - right. split; [auto | eauto].
Qed.

(** X19: a comparison is stored exactly when the database can be opened and
    holds no row of the new identifier; otherwise the database is left as it
    was.  After a successful store the identifier returned is the new one,
    a read under it gives back the request, the result, the use case and the
    time stamp that were stored, a read under any other identifier gives
    what it gave before, and one option row per option of the request has
    been added. *)
Theorem X19_store_then_read :
  forall db uuid now request result_,
    let outcome := Database.store_comparison db uuid now request result_ in
    ((exists id, snd outcome = Ok id) <->
     Database.connectable db = true
     /\ forall row, In row (Database.comparisons db) -> Database.id row <> uuid)
    /\ ((exists e, snd outcome = Raise e) -> fst outcome = db)
    /\ (forall id,
          snd outcome = Ok id ->
          id = uuid
          /\ Database.get_comparison (fst outcome) uuid
             = Ok (Some (Database.mk_comparison_row
                           uuid request result_
                           (ComparisonRequest.use_case request) now))
          /\ (forall other,
                other <> uuid ->
                Database.get_comparison (fst outcome) other
                = Database.get_comparison db other)
          /\ map Database.option_name (Database.comparison_options (fst outcome))
             = map Database.option_name (Database.comparison_options db)
               ++ map TechOption.name (ComparisonRequest.options request)).
Proof.
  intros db uuid now request result_ outcome. subst outcome.
  assert (Hfresh :
    existsb (fun row => String.eqb (Database.id row) uuid) (Database.comparisons db)
    = false
    <-> forall row, In row (Database.comparisons db) -> Database.id row <> uuid).
  { split.
    - intros He row Hin Heq.
      assert (Ht : existsb (fun row => String.eqb (Database.id row) uuid)
                           (Database.comparisons db) = true).
      { apply existsb_exists. exists row. split; [assumption|].
        apply String.eqb_eq. assumption. }
      congruence.
    - intro Hall. destruct (existsb _ _) eqn:He; [|reflexivity].
      apply existsb_exists in He. destruct He as (row & Hin & Heq).
      apply String.eqb_eq in Heq. exfalso. exact (Hall row Hin Heq). }
  destruct (store_comparison_cases db uuid now request result_)
    as [(Hc & He & ->) | (Hwhy & e & ->)]; cbn [fst snd].
  - split; [split; [intros _; split; [assumption | apply Hfresh; assumption] | eauto]|].
    split; [intros (e & He'); discriminate|].
    intros id [= <-]. split; [reflexivity|].
    unfold Database.get_comparison, Database.connect.
    cbn [Database.connectable Database.comparisons Database.comparison_options].
    rewrite Hc. cbn [bind].
    split; [|split].
    + rewrite find_app_fresh, (existsb_false_find _ _ He).
      cbn [Database.id]. rewrite String.eqb_refl. reflexivity.
    + intros other Hother. rewrite find_app_fresh. cbn [Database.id].
      destruct (find _ (Database.comparisons db)); [reflexivity|].
      destruct (String.eqb_spec uuid other); [congruence | reflexivity].
    + rewrite map_app, map_map. reflexivity.
  - split; [|split; [reflexivity | discriminate]].
    split; [intros (id & Hid); discriminate|].
    intros [Hc Hall]. apply Hfresh in Hall. destruct Hwhy; congruence.
Qed.

Lemma X19_store_then_read_witness :
  exists db' row,
    Database.store_comparison Database.empty "0c1f" "2024-01-01T00:00:00"
      balanced_request
      (ComparisonResult.mk None strict_scores []
                           (KiroAnalysis.mk "" [] [] [] []) None)
    = (db', Ok "0c1f")
    /\ Database.get_comparison db' "0c1f" = Ok (Some row)
    /\ Database.request_data row = balanced_request.
Proof.
  destruct (X19_store_then_read Database.empty "0c1f" "2024-01-01T00:00:00"
              balanced_request
              (ComparisonResult.mk None strict_scores []
                                   (KiroAnalysis.mk "" [] [] [] []) None))
    as (_ & _ & Hread).
  destruct (Hread "0c1f" eq_refl) as (_ & Hget & _).
  eexists. eexists. split; [reflexivity|]. split; [exact Hget | reflexivity].
Defined.

Lemma stored_score_found (scores : list OptionScore.t) (name : string) :
  (exists s, score_lookup scores name = Ok s) ->
  exists s, In s scores
            /\ OptionScore.option_name s = name
            /\ Database.stored_score scores name = OptionScore.weighted_score s.
Proof.
  intros (s & Hs). unfold score_lookup in Hs.
  destruct (find _ (rev scores)) as [s'|] eqn:Hrev; [|discriminate].
  apply find_some in Hrev. destruct Hrev as [Hin Hname].
  apply in_rev in Hin.
  unfold Database.stored_score.
  destruct (find _ scores) as [found|] eqn:Hfound.
  - apply find_some in Hfound. destruct Hfound as [Hin' Hname'].
    apply String.eqb_eq in Hname'. exists found. auto.
  - exfalso. pose proof (find_none _ _ Hfound s' Hin) as Hno.
    simpl in Hno. congruence.
Qed.

(** X20: when the result that is stored is the result of comparing the
    request, every option row written holds the weighted score of a score
    of that option's name: the fallback score 0.0 for an option without a
    score is never used. *)
Theorem X20_stored_option_scores :
  forall db uuid now request result_ db' id,
    DecisionEngine.compare request = Ok result_ ->
    Database.store_comparison db uuid now request result_ = (db', Ok id) ->
    exists rows,
      Database.comparison_options db' = Database.comparison_options db ++ rows
      /\ map Database.option_data rows = ComparisonRequest.options request
      /\ Forall (fun row =>
                   Database.comparison_id row = id
                   /\ Database.option_name row
                      = TechOption.name (Database.option_data row)
                   /\ exists s,
                       In s (ComparisonResult.scores result_)
                       /\ OptionScore.option_name s = Database.option_name row
                       /\ Database.score row = OptionScore.weighted_score s)
                rows.
Proof.
  intros db uuid now request result_ db' id Hcompare Hstore.
  destruct (store_comparison_cases db uuid now request result_)
    as [(_ & _ & Heq) | (_ & e & Heq)]; rewrite Heq in Hstore; [|discriminate].
  injection Hstore as <- <-.
  eexists. split; [reflexivity|]. split.
  - rewrite map_map. cbn [Database.option_data]. apply map_id.
  - unfold DecisionEngine.compare in Hcompare. bind_inv Hcompare.
    injection Hcompare as <-. cbn [ComparisonResult.scores].
    apply Forall_forall. intros row Hin. apply in_map_iff in Hin.
    destruct Hin as (opt & <- & Hopt).
    cbn [Database.comparison_id Database.option_name Database.option_data
         Database.score].
    split; [reflexivity|]. split; [reflexivity|].
    apply stored_score_found.
    eapply score_lookup_after_scoring; eassumption.
Qed.

Lemma X20_stored_option_scores_witness :
  exists db' rows,
    Database.store_comparison Database.empty "0c1f" "2024-01-01T00:00:00"
                              balanced_request balanced_result
    = (db', Ok "0c1f")
    /\ Database.comparison_options db' = rows
    /\ map Database.option_name rows = ["Managed SQL"; "Self-hosted"]
    /\ Forall (fun row =>
                 exists s,
                   In s (ComparisonResult.scores balanced_result)
                   /\ Database.score row = OptionScore.weighted_score s) rows.
Proof.
  destruct (X20_stored_option_scores
              Database.empty "0c1f" "2024-01-01T00:00:00"
              balanced_request balanced_result _ "0c1f" eq_refl eq_refl)
    as (rows & Hrows & _ & Hall).
  eexists. exists rows. split; [reflexivity|]. split; [exact Hrows|].
  split.
  - vm_compute in Hrows. rewrite <- Hrows. reflexivity.
  - eapply Forall_impl; [|exact Hall].
    intros row (_ & _ & s & Hin & _ & Hscore). eauto.
Defined.

(** ** The handlers *)

Lemma read_after_store db uuid now request result_ :
  Database.connectable db = true ->
  existsb (fun row => String.eqb (Database.id row) uuid) (Database.comparisons db)
  = false ->
  Database.get_comparison
    (Database.mk
       (Database.comparisons db
        ++ [Database.mk_comparison_row uuid request result_
              (ComparisonRequest.use_case request) now])
       (Database.comparison_options db
        ++ map (fun opt =>
                  Database.mk_option_row
                    uuid (TechOption.name opt) opt
                    (Database.stored_score (ComparisonResult.scores result_)
                                           (TechOption.name opt)))
               (ComparisonRequest.options request))
       (Database.connectable db))
    uuid
  = Ok (Some (Database.mk_comparison_row uuid request result_
                (ComparisonRequest.use_case request) now)).
Proof.
  intros Hc He. unfold Database.get_comparison, Database.connect.
  cbn [Database.connectable Database.comparisons]. rewrite Hc. cbn [bind].
  rewrite find_app_fresh, (existsb_false_find _ _ He).
  cbn [Database.id]. rewrite String.eqb_refl. reflexivity.
Qed.

Lemma compare_result_without_id request result_ :
  DecisionEngine.compare request = Ok result_ ->
  ComparisonResult.comparison_id result_ = None.
Proof.
  unfold DecisionEngine.compare. intro H. bind_inv H. injection H as <-. reflexivity.
Qed.

(** X21: [POST /compare] answers 200 or 500.  It answers 200 exactly when the
    comparison returns, the database can be opened and the new identifier is
    not in use; the body is then the computed result with the identifier
    attached, and [GET /comparisons/{id}] under that identifier returns the
    request and the computed result as it was before the identifier was
    attached (its comparison_id is null).  When it answers 500 the database
    is left as it was. *)
Theorem X21_post_compare_outcomes :
  forall db uuid now request,
    let outcome := compare_options db uuid now request in
    (http_status (snd outcome) = 200%nat \/ http_status (snd outcome) = 500%nat)
    /\ (http_status (snd outcome) = 200%nat <->
        (exists computed, DecisionEngine.compare request = Ok computed)
        /\ Database.connectable db = true
        /\ existsb (fun row => String.eqb (Database.id row) uuid)
                   (Database.comparisons db) = false)
    /\ (http_status (snd outcome) = 500%nat -> fst outcome = db)
    /\ (forall returned,
          snd outcome = Ok returned ->
          exists computed,
            DecisionEngine.compare request = Ok computed
            /\ returned = set_comparison_id computed uuid
            /\ ComparisonResult.comparison_id computed = None
            /\ get_comparison (fst outcome) uuid
               = Ok (Database.mk_comparison_row
                       uuid request computed
                       (ComparisonRequest.use_case request) now)).
Proof.
  intros db uuid now request outcome. subst outcome. unfold compare_options.
  destruct (DecisionEngine.compare request) as [computed|e] eqn:Hcompare.
  - destruct (store_comparison_cases db uuid now request computed)
      as [(Hc & He & ->) | (Hwhy & e & ->)]; cbn [fst snd http_status].
    + split; [auto|]. split; [split; eauto|]. split; [discriminate|].
      intros returned [= <-]. exists computed.
      split; [reflexivity|]. split; [reflexivity|]. split.
      * apply (compare_result_without_id request computed Hcompare).
      * unfold get_comparison. rewrite read_after_store by assumption. reflexivity.
    + split; [auto|]. split; [|split; [reflexivity | discriminate]].
      split; [discriminate|]. intros (_ & Hc & He). destruct Hwhy; congruence.
  - cbn [fst snd http_status].
    split; [auto|]. split; [|split; [reflexivity | discriminate]].
    split; [discriminate|]. intros ((c & Hc) & _). discriminate.
Qed.

Lemma X21_post_compare_outcomes_witness :
  exists db' returned row,
    compare_options Database.empty "0c1f" "2024-01-01T00:00:00" balanced_request
    = (db', Ok returned)
    /\ ComparisonResult.comparison_id returned = Some "0c1f"
    /\ get_comparison db' "0c1f" = Ok row
    /\ ComparisonResult.comparison_id (Database.result_data row) = None.
Proof.
  destruct (X21_post_compare_outcomes
              Database.empty "0c1f" "2024-01-01T00:00:00" balanced_request)
    as (_ & _ & _ & Hbody).
  edestruct Hbody as (computed & _ & Hret & Hid & Hget); [reflexivity|].
  do 3 eexists. split; [reflexivity|]. split; [reflexivity|].
  split; [exact Hget | exact Hid].
Defined.

(** X22: [GET /comparisons/{id}] answers 200 exactly when the database can be
    opened and holds a row of the identifier, and the body is then that row;
    in every other case it answers 500: it never answers 404. *)
Theorem X22_get_comparison_outcomes :
  forall db comparison_id,
    (forall row,
        get_comparison db comparison_id = Ok row <->
        Database.connectable db = true
        /\ find (fun r => String.eqb (Database.id r) comparison_id)
                (Database.comparisons db) = Some row)
    /\ (forall row,
          get_comparison db comparison_id = Ok row ->
          In row (Database.comparisons db) /\ Database.id row = comparison_id)
    /\ (http_status (get_comparison db comparison_id) = 200%nat
        \/ http_status (get_comparison db comparison_id) = 500%nat)
    /\ http_status (get_comparison db comparison_id) <> 404%nat.
Proof.
  intros db comparison_id.
  unfold get_comparison, Database.get_comparison, Database.connect.
  destruct (Database.connectable db); cbn [bind try_except].
  - destruct (find _ _) as [found|] eqn:Hfind; cbn [try_except http_status].
    + split; [intro row; split; [intros [= <-]; auto | intros [_ [= <-]]; reflexivity]|].
      split; [|split; [auto | discriminate]].
      intros row [= <-]. apply find_some in Hfind. destruct Hfind as [Hin Heq].
      apply String.eqb_eq in Heq. auto.
    + split; [intro row; split; [discriminate | intros [_ H]; discriminate]|].
      split; [discriminate|]. split; [auto | discriminate].
  - cbn [http_status].
    split; [intro row; split; [discriminate | intros [H _]; discriminate]|].
    split; [discriminate|]. split; [auto | discriminate].
Qed.
